(** * FERC EQR Explorer: the query-construction core of [app.py]

    A shallow embedding of the regional mapping ([BA_REGIONS],
    [ALL_BAS_FLAT]) and of the query logic ([build_where_clause],
    [fetch_market_trends], [fetch_leaderboard]).

    Python [str] values are [string]; Python [int] values are [Z];
    the list [where] is a [list string]; the dict [BA_REGIONS] is an
    association list in declaration order; a subscript on a missing
    key raises [KeyError], which is the only exception the modelled
    code can raise. *)

From Stdlib Require Import ZArith List Bool Lia Permutation.
From Stdlib Require Import Strings.String Strings.Ascii Numbers.DecimalString.
From Stdlib Require Import Sorting.Sorted Sorting.Mergesort Structures.Orders.
From Stdlib Require Numbers.DecimalZ Numbers.DecimalPos.
From Stdlib Require Structures.OrderedTypeEx.
Import ListNotations.

Open Scope string_scope.

(** ** Exceptions *)

Inductive exn : Type :=
| KeyError (key : string).

Inductive result (A : Type) : Type :=
| Ok (a : A)
| Raise (e : exn).

Arguments Ok {A} a.
Arguments Raise {A} e.

Definition bind {A B : Type} (m : result A) (k : A -> result B) : result B :=
  match m with
  | Ok a => k a
  | Raise e => Raise e
  end.

Notation "x <- m ;; k" := (bind m (fun x => k))
  (at level 61, m at next level, right associativity).

(** ** Python primitives used by the source *)

(** [str(n)] for an [int], as an f-string field renders it. *)
Definition str_of_int (n : Z) : string :=
  NilZero.string_of_int (Z.to_int n).

(** [sep.join(xs)]. *)
Definition join (sep : string) (xs : list string) : string :=
  String.concat sep xs.

(** [a != b] on strings. *)
Definition neqb (a b : string) : bool := negb (a =? b).

(** [sorted(xs)] on strings: ascending by code point. *)
Module StringOrder <: TotalLeBool.
Definition t := string.
Definition leb := String.leb.
Lemma leb_total : forall x y, leb x y = true \/ leb y x = true.
Proof. exact String.leb_total. Qed.
End StringOrder.

Module StringSort := Sort StringOrder.

Definition sorted (xs : list string) : list string := StringSort.sort xs.

(** A set built by a comprehension: the distinct elements. *)
Definition set_of (xs : list string) : list string := nodup string_dec xs.

(** [d[k]] on a dict given by its items. *)
Fixpoint dict_get {V : Type} (d : list (string * V)) (k : string) : result V :=
  match d with
  | [] => Raise (KeyError k)
  | (k', v) :: d' => if k' =? k then Ok v else dict_get d' k
  end.

Definition dict_keys {V : Type} (d : list (string * V)) : list string :=
  map fst d.

Definition dict_values {V : Type} (d : list (string * V)) : list V :=
  map snd d.

(** ** 2. Regional mapping *)

Definition BA_REGIONS : list (string * list string) :=
  [
    ("All Regions",
      ["All Regions"]);
    ("California (CISO)",
      ["CISO"; "BANC"; "IID"; "LDWP"; "TIDC"; "WALC"]);
    ("Northwest (NW)",
      ["BPAT"; "AVA"; "CHPD"; "DOPD"; "GCPD"; "GRID"; "IPCO"; "NWMT"; "PACE";
       "PACW"; "PGE"; "PSEI"; "SCL"; "TPWR"; "WAUW"]);
    ("Southwest (SW)",
      ["AZPS"; "EPE"; "NEVP"; "PNM"; "SRP"; "TEPC"; "WALC"; "WACM"]);
    ("Midwest (MISO)",
      ["MISO"; "ALTE"; "ALTW"; "AMIL"; "AMMO"; "AMRN"; "BREC"; "CIN"; "CONS";
       "DECO"; "DPC"; "GRE"; "HE"; "IPL"; "MEC"; "MECS"; "MP"; "NSP"; "OTP";
       "SIGE"; "SMP"; "UPPC"; "WEC"; "WPS"]);
    ("Central (SPP)",
      ["SPP"; "AECI"; "EDE"; "GRDA"; "INDN"; "KCPL"; "LES"; "NPPD"; "OKGE";
       "OPPD"; "SPA"; "SPS"; "SWPP"; "WAUE"; "WFEC"; "WR"]);
    ("Southeast (SE)",
      ["SOCO"; "AEC"; "CPLE"; "CPLW"; "DUK"; "FPC"; "FPL"; "GVL"; "HST"; "JEA";
       "LGEE"; "SC"; "SCEG"; "TAL"; "TEC"; "TVA"; "YAD"]);
    ("Mid-Atlantic (PJM)",
      ["PJM"; "AEBN"; "AEP"; "AP"; "BC"; "CE"; "DAY"; "DE"; "DL"; "DOM"; "DPL";
       "DUQ"; "EKPC"; "FE"; "JC"; "ME"; "PE"; "PEP"; "PL"; "PN"; "PS"; "RE"]);
    ("New York (NYISO)",
      ["NYIS"]);
    ("New England (ISONE)",
      ["ISNE"]);
    ("Canada / Other",
      ["AESO"; "BCHA"; "CFE"; "HQT"; "IESO"; "MHEB"; "NBSO"; "SPC"])
  ].

(** The comprehension of [ALL_BAS_FLAT], over any dict of regions:
    [{ba for bas in d.values() for ba in bas if ba != "All Regions"}]
    before it is made a set. *)
Definition flat_bas (d : list (string * list string)) : list string :=
  flat_map (fun bas => filter (fun ba => neqb ba "All Regions") bas)
           (dict_values d).

Definition all_bas_flat (d : list (string * list string)) : list string :=
  sorted (set_of (flat_bas d)).

Definition ALL_BAS_FLAT : list string := all_bas_flat BA_REGIONS.

(** ** 4. Query logic *)

Definition unit_of (product : string) : string :=
  if product =? "ENERGY" then "$/MWH" else "$/KW-MO".

(** [xs.append(x)]. *)
Definition append_item {A : Type} (xs : list A) (x : A) : list A :=
  (xs ++ [x])%list.

(** The list [where] (here [where_]) as it stands when
    [build_where_clause] joins it. *)
Definition where_list
    (product region ba_selection affiliate rate_type service_type : string)
    (year_range : Z * Z) : result (list string) :=
  let unit := unit_of product in
  let where_ :=
    [ "product_name = '" ++ product ++ "'";
      "term_name = 'LT'";
      "rate_units = '" ++ unit ++ "'";
      "rate > 0" ] in
  let '(start_year, end_year) := year_range in
  let where_ := append_item where_
    ("CAST(substr(year_quarter, 1, 4) AS INTEGER) BETWEEN "
       ++ str_of_int start_year ++ " AND " ++ str_of_int end_year) in
  (* Regional Logic *)
  where_ <-
    (if neqb ba_selection ("All BAs in " ++ region)
        && neqb ba_selection "All Regions"
     then Ok (append_item where_
       ("point_of_delivery_balancing_authority = '" ++ ba_selection ++ "'"))
     else if neqb region "All Regions"
     then
       regional_bas <- dict_get BA_REGIONS region ;;
       let ba_list_str := join "', '" regional_bas in
       Ok (append_item where_
         ("point_of_delivery_balancing_authority IN ('" ++ ba_list_str ++ "')"))
     else Ok where_) ;;
  let where_ :=
    if neqb affiliate "All"
    then
      let is_affiliate := if affiliate =? "Affiliate" then "TRUE" else "FALSE" in
      append_item where_ ("contract_affiliate = " ++ is_affiliate)
    else where_ in
  (* Rate Type Logic *)
  let where_ :=
    if rate_type =? "Market-Based"
    then append_item where_ "product_type_name = 'MB'"
    else if rate_type =? "Cost-Based"
    then append_item where_ "product_type_name = 'CB'"
    else where_ in
  (* Service Class Logic *)
  let where_ :=
    if service_type =? "Firm"
    then append_item where_ "class_name = 'F'"
    else if service_type =? "Non-Firm"
    then append_item where_ "class_name = 'NF'"
    else where_ in
  Ok where_.

Definition build_where_clause
    (product region ba_selection affiliate rate_type service_type : string)
    (year_range : Z * Z) : result string :=
  where_ <- where_list product region ba_selection affiliate rate_type
                      service_type year_range ;;
  Ok (join " AND " where_).

Definition LF : string := String (ascii_of_nat 10) "".

Definition s3_path : string :=
  "s3://pudl.catalyst.coop/ferceqr/core_ferceqr__contracts/*.parquet".

(** The f-string [query] of [fetch_market_trends]. *)
Definition trends_query_head : string :=
  LF ++ "    SELECT " ++ LF
  ++ "        year_quarter," ++ LF
  ++ "        approx_quantile(rate, 0.5) as median_price," ++ LF
  ++ "        approx_quantile(rate, 0.25) as p25_price," ++ LF
  ++ "        approx_quantile(rate, 0.75) as p75_price," ++ LF
  ++ "        count(*) as contract_count" ++ LF
  ++ "    FROM read_parquet('" ++ s3_path ++ "')" ++ LF
  ++ "    WHERE ".

Definition trends_query_tail : string :=
  LF ++ "    GROUP BY 1 ORDER BY 1" ++ LF
  ++ "    ".

Definition trends_query (where_stmt : string) : string :=
  trends_query_head ++ where_stmt ++ trends_query_tail.

(** The f-string [query] of [fetch_leaderboard]. *)
Definition leaderboard_query_head : string :=
  LF ++ "    SELECT " ++ LF
  ++ "        ".

Definition leaderboard_query_mid : string :=
  " as entity_name, " ++ LF
  ++ "        sum(quantity) as total_volume," ++ LF
  ++ "        count(*) as contracts_count" ++ LF
  ++ "    FROM read_parquet('" ++ s3_path ++ "')" ++ LF
  ++ "    WHERE ".

Definition leaderboard_query_tail : string :=
  LF ++ "    GROUP BY 1" ++ LF
  ++ "    ORDER BY 2 DESC" ++ LF
  ++ "    LIMIT 10" ++ LF
  ++ "    ".

Definition leaderboard_query (group_col where_stmt : string) : string :=
  leaderboard_query_head ++ group_col ++ leaderboard_query_mid
  ++ where_stmt ++ leaderboard_query_tail.

Definition group_col_of (entity_type : string) : string :=
  if entity_type =? "seller" then "seller_company_name"
  else "customer_company_name".

(** The execution engine is external: [execute] stands for
    [con.execute(query).df()]. *)
Section Fetch.
Variable frame : Type.
Variable execute : string -> frame.

Definition fetch_market_trends
    (product region ba affiliate rate_type service_type : string)
    (year_range : Z * Z) : result (frame * string) :=
  where_stmt <- build_where_clause product region ba affiliate rate_type
                                   service_type year_range ;;
  let query := trends_query where_stmt in
  Ok (execute query, query).

Definition fetch_leaderboard
    (entity_type product region ba affiliate rate_type service_type : string)
    (year_range : Z * Z) : result frame :=
  where_stmt <- build_where_clause product region ba affiliate rate_type
                                   service_type year_range ;;
  let group_col := group_col_of entity_type in
  let query := leaderboard_query group_col where_stmt in
  Ok (execute query).
End Fetch.

(** The options of the balancing-authority select box, as the layout
    section computes them from the chosen region. *)
Definition ba_options (region_choice : string) : result (list string) :=
  if region_choice =? "All Regions"
  then Ok ("All Regions" :: ALL_BAS_FLAT)
  else
    bas <- dict_get BA_REGIONS region_choice ;;
    Ok (("All BAs in " ++ region_choice) :: sorted bas).

(** [sub in s] on strings. *)
Fixpoint contains (sub s : string) : bool :=
  if String.prefix sub s then true
  else
    match s with
    | EmptyString => false
    | String _ s' => contains sub s'
    end.

(** The title of the trend chart, as the visualisation section
    computes it from the two select boxes. *)
Definition chart_title (ba_choice region_choice : string) : string :=
  if negb (contains "All BAs" ba_choice)
  then ba_choice ++ " Price Trends"
  else region_choice ++ " Regional Price Index".

(** [s] has no occurrence of the character [x]. *)
Fixpoint free_of (x : ascii) (s : string) : bool :=
  match s with
  | EmptyString => true
  | String c s' => negb (Ascii.eqb c x) && free_of x s'
  end.

(** ** Reading a predicate and a query back

    The predicate is text; the properties below speak of its
    conditions by the column each one starts with, and of the
    predicate portion of a query as the text between the first
    [WHERE ] and the fixed tail of the template. *)

(** [cond] is a condition on column [col]. *)
Definition on_column (col cond : string) : bool :=
  String.prefix (col ++ " ") cond.

Definition BA_COLUMN : string := "point_of_delivery_balancing_authority".

Definition is_year_cond (cond : string) : bool :=
  String.prefix "CAST(substr(year_quarter, 1, 4) AS INTEGER) BETWEEN " cond.

Definition conds_on (col : string) (conds : list string) : list string :=
  filter (on_column col) conds.

Definition conds_off (col : string) (conds : list string) : list string :=
  filter (fun c => negb (on_column col c)) conds.

Fixpoint strip_prefix (pat s : string) : option string :=
  match pat, s with
  | EmptyString, _ => Some s
  | String a pat', String b s' =>
      if Ascii.eqb a b then strip_prefix pat' s' else None
  | String _ _, EmptyString => None
  end.

(** The text after the first occurrence of [pat] in [s]. *)
Fixpoint after_first (pat s : string) : option string :=
  match strip_prefix pat s with
  | Some rest => Some rest
  | None =>
      match s with
      | EmptyString => None
      | String _ s' => after_first pat s'
      end
  end.

(** [s] without its ending [tail], when it ends with it. *)
Fixpoint strip_suffix (tail s : string) : option string :=
  if s =? tail then Some EmptyString
  else
    match s with
    | EmptyString => None
    | String c s' => option_map (String c) (strip_suffix tail s')
    end.

Definition where_portion (tail query : string) : option string :=
  match after_first "WHERE " query with
  | Some rest => strip_suffix tail rest
  | None => None
  end.

(** The five conditions every predicate starts with. *)
Definition base_conds (product : string) (start_year end_year : Z) : list string :=
  [ "product_name = '" ++ product ++ "'";
    "term_name = 'LT'";
    "rate_units = '" ++ unit_of product ++ "'";
    "rate > 0";
    "CAST(substr(year_quarter, 1, 4) AS INTEGER) BETWEEN "
      ++ str_of_int start_year ++ " AND " ++ str_of_int end_year ].

Definition ba_eq_cond (code : string) : string :=
  "point_of_delivery_balancing_authority = '" ++ code ++ "'".

Definition ba_in_cond (codes : list string) : string :=
  "point_of_delivery_balancing_authority IN ('" ++ join "', '" codes ++ "')".

(** What each block of [build_where_clause] appends. *)
Definition regional_conds (region ba_selection : string) : result (list string) :=
  if neqb ba_selection ("All BAs in " ++ region)
     && neqb ba_selection "All Regions"
  then Ok [ba_eq_cond ba_selection]
  else if neqb region "All Regions"
  then regional_bas <- dict_get BA_REGIONS region ;; Ok [ba_in_cond regional_bas]
  else Ok [].

Definition affiliate_conds (affiliate : string) : list string :=
  if neqb affiliate "All"
  then [ "contract_affiliate = "
           ++ (if affiliate =? "Affiliate" then "TRUE" else "FALSE") ]
  else [].

Definition rate_conds (rate_type : string) : list string :=
  if rate_type =? "Market-Based" then [ "product_type_name = 'MB'" ]
  else if rate_type =? "Cost-Based" then [ "product_type_name = 'CB'" ]
  else [].

Definition service_conds (service_type : string) : list string :=
  if service_type =? "Firm" then [ "class_name = 'F'" ]
  else if service_type =? "Non-Firm" then [ "class_name = 'NF'" ]
  else [].

(** The union the specification describes: the codes of every region
    whose label is not "All Regions", each once. *)
Definition union_of_other_regions (d : list (string * list string)) : list string :=
  set_of (flat_map snd (filter (fun kv => neqb (fst kv) "All Regions") d)).

(** The items written between single quotes in [s], in order. *)
Fixpoint quoted_items_from (s : string) (inside : bool) (cur : string)
  : list string :=
  match s with
  | EmptyString => []
  | String c s' =>
      if Ascii.eqb c "'"%char
      then if inside
           then cur :: quoted_items_from s' false EmptyString
           else quoted_items_from s' true EmptyString
      else if inside
           then quoted_items_from s' true (cur ++ String c EmptyString)
           else quoted_items_from s' false EmptyString
  end.

Definition quoted_items (s : string) : list string :=
  quoted_items_from s false EmptyString.

(** * Properties *)

(** ** The shape of the list [where] *)

Lemma where_list_shape product region ba affiliate rate_type service_type y0 y1 :
  where_list product region ba affiliate rate_type service_type (y0, y1) =
  (reg <- regional_conds region ba ;;
   Ok (base_conds product y0 y1 ++ reg ++ affiliate_conds affiliate
         ++ rate_conds rate_type ++ service_conds service_type)%list).
Proof.
  unfold where_list, regional_conds, affiliate_conds, rate_conds, service_conds,
    base_conds, append_item, ba_eq_cond, ba_in_cond.
  destruct (neqb ba ("All BAs in " ++ region) && neqb ba "All Regions");
    [| destruct (neqb region "All Regions");
       [destruct (dict_get BA_REGIONS region) |] ];
    cbn [bind];
    destruct (neqb affiliate "All");
    destruct (rate_type =? "Market-Based"); destruct (rate_type =? "Cost-Based");
    destruct (service_type =? "Firm"); destruct (service_type =? "Non-Firm");
    reflexivity.
Qed.

(** ** Helper facts *)

(** Membership in a list written out. *)
Ltac in_list := repeat (first [left; reflexivity | right]).

Lemma conds_on_app col l1 l2 :
  conds_on col (l1 ++ l2) = (conds_on col l1 ++ conds_on col l2)%list.
Proof. apply filter_app. Qed.

Lemma conds_off_app col l1 l2 :
  conds_off col (l1 ++ l2) = (conds_off col l1 ++ conds_off col l2)%list.
Proof. apply filter_app. Qed.

Lemma dict_get_missing {V : Type} (d : list (string * V)) (k : string) :
  ~ In k (dict_keys d) -> dict_get d k = Raise (KeyError k).
Proof.
  induction d as [| [k' v] d IH]; simpl; intros Hk.
  - reflexivity.
  - destruct (String.eqb_spec k' k) as [-> | _].
    + exfalso. apply Hk. now left.
    + apply IH. intros Hin. apply Hk. now right.
Qed.

Lemma dict_get_raises {V : Type} (d : list (string * V)) (k : string) e :
  dict_get d k = Raise e -> e = KeyError k /\ ~ In k (dict_keys d).
Proof.
  induction d as [| [k' v] d IH]; simpl.
  - intros [= <-]. split; [reflexivity | tauto].
  - destruct (String.eqb_spec k' k) as [-> | Hne]; [discriminate |].
    intros H. destruct (IH H) as [-> Hnin]. split; [reflexivity |].
    intros [Heq | Hin]; [now apply Hne | now apply Hnin].
Qed.

Lemma dict_get_In {V : Type} (d : list (string * V)) (k : string) (v : V) :
  dict_get d k = Ok v -> In (k, v) d.
Proof.
  induction d as [| [k' v'] d IH]; simpl; [discriminate |].
  destruct (String.eqb_spec k' k) as [-> | _].
  - intros [= ->]. now left.
  - intros H. right. now apply IH.
Qed.

Lemma neqb_true a b : neqb a b = true <-> a <> b.
Proof.
  unfold neqb. destruct (String.eqb_spec a b); simpl; split;
    congruence.
Qed.

Lemma neqb_false a b : neqb a b = false <-> a = b.
Proof.
  unfold neqb. destruct (String.eqb_spec a b); simpl; split;
    congruence.
Qed.

(** The labels of the catalog are distinct, so the first binding of a
    label is its only one. *)
Lemma BA_REGIONS_keys_distinct : NoDup (dict_keys BA_REGIONS).
Proof.
  replace (dict_keys BA_REGIONS)
    with (nodup string_dec (dict_keys BA_REGIONS))
    by (vm_compute; reflexivity).
  apply NoDup_nodup.
Qed.

Lemma all_regions_is_key : In "All Regions" (dict_keys BA_REGIONS).
Proof. simpl. now left. Qed.

(** The regional block, case by case. *)
Lemma regional_conds_single region ba :
  ba <> "All BAs in " ++ region -> ba <> "All Regions" ->
  regional_conds region ba = Ok [ba_eq_cond ba].
Proof.
  intros H1 H2. unfold regional_conds.
  apply neqb_true in H1. apply neqb_true in H2. now rewrite H1, H2.
Qed.

Lemma regional_conds_region region ba :
  ba = "All BAs in " ++ region \/ ba = "All Regions" ->
  region <> "All Regions" ->
  regional_conds region ba =
  (regional_bas <- dict_get BA_REGIONS region ;; Ok [ba_in_cond regional_bas]).
Proof.
  intros H1 H2. unfold regional_conds.
  apply neqb_true in H2. rewrite H2.
  destruct H1 as [H1 | H1]; apply neqb_false in H1; rewrite H1;
    [reflexivity | now rewrite andb_false_r].
Qed.

Lemma regional_conds_none ba :
  ba = "All BAs in All Regions" \/ ba = "All Regions" ->
  regional_conds "All Regions" ba = Ok [].
Proof.
  intros [-> | ->]; reflexivity.
Qed.

Lemma regional_conds_known region ba codes :
  dict_get BA_REGIONS region = Ok codes ->
  exists reg, regional_conds region ba = Ok reg /\
    (reg = [ba_eq_cond ba] \/ reg = [ba_in_cond codes] \/ reg = []).
Proof.
  intros Hget. unfold regional_conds.
  destruct (neqb ba ("All BAs in " ++ region) && neqb ba "All Regions").
  - eexists; split; [reflexivity | auto].
  - destruct (neqb region "All Regions").
    + rewrite Hget. eexists; split; [reflexivity | auto].
    + eexists; split; [reflexivity | auto].
Qed.

Lemma regional_conds_raises region ba e :
  regional_conds region ba = Raise e ->
  e = KeyError region /\ ~ In region (dict_keys BA_REGIONS).
Proof.
  unfold regional_conds.
  destruct (neqb ba ("All BAs in " ++ region) && neqb ba "All Regions");
    [discriminate |].
  destruct (neqb region "All Regions"); [| discriminate].
  destruct (dict_get BA_REGIONS region) eqn:Hget; [discriminate |].
  intros [= ->]. now apply dict_get_raises in Hget.
Qed.

(** Which columns the conditions of each block are on. *)
Lemma on_column_ba_eq code : on_column BA_COLUMN (ba_eq_cond code) = true.
Proof. reflexivity. Qed.

Lemma on_column_ba_in codes : on_column BA_COLUMN (ba_in_cond codes) = true.
Proof. reflexivity. Qed.

Lemma regional_conds_columns region ba reg :
  regional_conds region ba = Ok reg ->
  conds_on BA_COLUMN reg = reg /\
  conds_on "contract_affiliate" reg = [] /\
  conds_on "product_type_name" reg = [] /\
  conds_on "class_name" reg = [] /\
  conds_off "product_type_name" reg = reg /\
  conds_off "class_name" reg = reg.
Proof.
  unfold regional_conds.
  destruct (neqb ba ("All BAs in " ++ region) && neqb ba "All Regions").
  - intros [= <-]. repeat split; reflexivity.
  - destruct (neqb region "All Regions").
    + destruct (dict_get BA_REGIONS region); [| discriminate].
      intros [= <-]. repeat split; reflexivity.
    + intros [= <-]. repeat split; reflexivity.
Qed.

Lemma base_conds_columns product y0 y1 :
  conds_on BA_COLUMN (base_conds product y0 y1) = [] /\
  conds_on "contract_affiliate" (base_conds product y0 y1) = [] /\
  conds_on "product_type_name" (base_conds product y0 y1) = [] /\
  conds_on "class_name" (base_conds product y0 y1) = [] /\
  conds_off "product_type_name" (base_conds product y0 y1)
    = base_conds product y0 y1 /\
  conds_off "class_name" (base_conds product y0 y1) = base_conds product y0 y1.
Proof. repeat split; reflexivity. Qed.

Lemma affiliate_conds_columns affiliate :
  conds_on BA_COLUMN (affiliate_conds affiliate) = [] /\
  conds_on "contract_affiliate" (affiliate_conds affiliate)
    = affiliate_conds affiliate /\
  conds_on "product_type_name" (affiliate_conds affiliate) = [] /\
  conds_on "class_name" (affiliate_conds affiliate) = [] /\
  conds_off "product_type_name" (affiliate_conds affiliate)
    = affiliate_conds affiliate /\
  conds_off "class_name" (affiliate_conds affiliate) = affiliate_conds affiliate.
Proof.
  unfold affiliate_conds.
  destruct (neqb affiliate "All"); [destruct (affiliate =? "Affiliate") |];
    repeat split; reflexivity.
Qed.

Lemma rate_conds_columns rate_type :
  conds_on BA_COLUMN (rate_conds rate_type) = [] /\
  conds_on "contract_affiliate" (rate_conds rate_type) = [] /\
  conds_on "product_type_name" (rate_conds rate_type) = rate_conds rate_type /\
  conds_on "class_name" (rate_conds rate_type) = [] /\
  conds_off "product_type_name" (rate_conds rate_type) = [] /\
  conds_off "class_name" (rate_conds rate_type) = rate_conds rate_type.
Proof.
  unfold rate_conds.
  destruct (rate_type =? "Market-Based"); [| destruct (rate_type =? "Cost-Based")];
    repeat split; reflexivity.
Qed.

Lemma service_conds_columns service_type :
  conds_on BA_COLUMN (service_conds service_type) = [] /\
  conds_on "contract_affiliate" (service_conds service_type) = [] /\
  conds_on "product_type_name" (service_conds service_type) = [] /\
  conds_on "class_name" (service_conds service_type)
    = service_conds service_type /\
  conds_off "product_type_name" (service_conds service_type)
    = service_conds service_type /\
  conds_off "class_name" (service_conds service_type) = [].
Proof.
  unfold service_conds.
  destruct (service_type =? "Firm"); [| destruct (service_type =? "Non-Firm")];
    repeat split; reflexivity.
Qed.

Lemma build_where_clause_join product region ba affiliate rate_type service_type yr :
  build_where_clause product region ba affiliate rate_type service_type yr =
  (conds <- where_list product region ba affiliate rate_type service_type yr ;;
   Ok (join " AND " conds)).
Proof. reflexivity. Qed.

Lemma length_app (s1 s2 : string) :
  String.length (s1 ++ s2) = (String.length s1 + String.length s2)%nat.
Proof. induction s1; simpl; [reflexivity | now rewrite IHs1]. Qed.

Lemma strip_suffix_app tail w : strip_suffix tail (w ++ tail) = Some w.
Proof.
  induction w as [| c w IH].
  - destruct tail; simpl.
    + reflexivity.
    + now rewrite Ascii.eqb_refl, String.eqb_refl.
  - change (String c w ++ tail) with (String c (w ++ tail)).
    cbn [strip_suffix].
    destruct (String.eqb_spec (String c (w ++ tail)) tail) as [Heq | _].
    + exfalso. apply (f_equal String.length) in Heq.
      simpl in Heq. rewrite length_app in Heq. lia.
    + now rewrite IH.
Qed.

Lemma where_portion_trends w :
  where_portion trends_query_tail (trends_query w) = Some w.
Proof.
  unfold where_portion.
  replace (after_first "WHERE " (trends_query w))
    with (Some (w ++ trends_query_tail)) by (vm_compute; reflexivity).
  apply strip_suffix_app.
Qed.

Lemma where_portion_leaderboard entity_type w :
  where_portion leaderboard_query_tail
    (leaderboard_query (group_col_of entity_type) w) = Some w.
Proof.
  unfold where_portion, group_col_of.
  destruct (entity_type =? "seller").
  - replace (after_first "WHERE " (leaderboard_query "seller_company_name" w))
      with (Some (w ++ leaderboard_query_tail)) by (vm_compute; reflexivity).
    apply strip_suffix_app.
  - replace (after_first "WHERE " (leaderboard_query "customer_company_name" w))
      with (Some (w ++ leaderboard_query_tail)) by (vm_compute; reflexivity).
    apply strip_suffix_app.
Qed.

(** ** C1: the unrestricted ENERGY selection *)

(** C1, as stated, fails: for the selection ENERGY / "All Regions" /
    "All Regions" / All / All / All / (2013, 2025) the list of
    conditions does not have 4 elements. *)
Lemma unrestricted_selection_not_four_conditions :
  ~ (exists conds,
        where_list "ENERGY" "All Regions" "All Regions" "All" "All" "All"
                   (2013, 2025)%Z = Ok conds
        /\ List.length conds = 4%nat).
Proof.
  intros [conds [H Hlen]]. vm_compute in H. injection H as <-.
  discriminate Hlen.
Qed.

(** C1 (amended): for the selection ENERGY / "All Regions" /
    "All Regions" / All / All / All / (2013, 2025) the predicate has
    exactly 5 conditions: the product equality, the long-term term
    constant, the unit equality, the positive-rate condition and the
    year-range bound; it has no regional, affiliate, rate-basis or
    service-class condition, and [build_where_clause] returns them
    joined by [" AND "]. *)
Theorem unrestricted_selection_five_conditions :
  let conds :=
    [ "product_name = 'ENERGY'";
      "term_name = 'LT'";
      "rate_units = '$/MWH'";
      "rate > 0";
      "CAST(substr(year_quarter, 1, 4) AS INTEGER) BETWEEN 2013 AND 2025" ] in
  where_list "ENERGY" "All Regions" "All Regions" "All" "All" "All"
             (2013, 2025)%Z = Ok conds
  /\ List.length conds = 5%nat
  /\ conds_on BA_COLUMN conds = []
  /\ conds_on "contract_affiliate" conds = []
  /\ conds_on "product_type_name" conds = []
  /\ conds_on "class_name" conds = []
  /\ build_where_clause "ENERGY" "All Regions" "All Regions" "All" "All" "All"
                        (2013, 2025)%Z
     = Ok ("product_name = 'ENERGY' AND term_name = 'LT' AND "
           ++ "rate_units = '$/MWH' AND rate > 0 AND "
           ++ "CAST(substr(year_quarter, 1, 4) AS INTEGER) "
           ++ "BETWEEN 2013 AND 2025").
Proof. repeat split. Qed.

(** ** C2: a reversed year range *)

(** C2, as stated, fails: the range (2020, 2013) is not rejected; a
    predicate and a trend query are produced for it. *)
Lemma reversed_year_range_accepted :
  (2020 > 2013)%Z
  /\ build_where_clause "ENERGY" "All Regions" "All Regions" "All" "All" "All"
                        (2020, 2013)%Z
     = Ok ("product_name = 'ENERGY' AND term_name = 'LT' AND "
           ++ "rate_units = '$/MWH' AND rate > 0 AND "
           ++ "CAST(substr(year_quarter, 1, 4) AS INTEGER) "
           ++ "BETWEEN 2020 AND 2013")
  /\ exists query,
       fetch_market_trends string (fun q => q)
         "ENERGY" "All Regions" "All Regions" "All" "All" "All" (2020, 2013)%Z
       = Ok (query, query).
Proof.
  split; [reflexivity |]. split; [reflexivity |].
  eexists. reflexivity.
Qed.

(** C2 (amended): a year range with start > end is not validated.
    [build_where_clause] fails on it only when it fails on every
    other year range too (the catalog lookup of an unknown region,
    [KeyError]); whenever the region label is in the catalog it
    returns a predicate whose fifth condition is the bound
    [BETWEEN start AND end] with the two years as given, and
    [fetch_market_trends] embeds that predicate in its query. *)
Theorem reversed_year_range_not_validated
    (product region ba affiliate rate_type service_type : string)
    (start_year end_year : Z) :
  (start_year > end_year)%Z ->
  (forall (y0 y1 : Z) (e : exn),
      where_list product region ba affiliate rate_type service_type
                 (start_year, end_year) = Raise e
      <-> where_list product region ba affiliate rate_type service_type
                     (y0, y1) = Raise e)
  /\ (forall e,
      build_where_clause product region ba affiliate rate_type service_type
                         (start_year, end_year) = Raise e ->
      e = KeyError region /\ ~ In region (dict_keys BA_REGIONS))
  /\ (forall codes, dict_get BA_REGIONS region = Ok codes ->
      exists conds,
        where_list product region ba affiliate rate_type service_type
                   (start_year, end_year) = Ok conds
        /\ nth_error conds 4
           = Some ("CAST(substr(year_quarter, 1, 4) AS INTEGER) BETWEEN "
                   ++ str_of_int start_year ++ " AND " ++ str_of_int end_year)
        /\ build_where_clause product region ba affiliate rate_type service_type
                              (start_year, end_year)
           = Ok (join " AND " conds)
        /\ forall (frame : Type) (execute : string -> frame),
             fetch_market_trends frame execute product region ba affiliate
                                 rate_type service_type (start_year, end_year)
             = Ok (execute (trends_query (join " AND " conds)),
                   trends_query (join " AND " conds))).
Proof.
  intros _. split; [| split].
  - intros y0 y1 e. rewrite !where_list_shape.
    destruct (regional_conds region ba); simpl; split; intros H;
      solve [discriminate | exact H].
  - intros e. rewrite build_where_clause_join, where_list_shape.
    destruct (regional_conds region ba) eqn:Hreg; simpl; [discriminate |].
    intros [= <-]. now apply regional_conds_raises in Hreg.
  - intros codes Hget.
    destruct (regional_conds_known region ba codes Hget) as [reg [Hreg _]].
    unfold fetch_market_trends.
    rewrite build_where_clause_join, where_list_shape, Hreg. simpl.
    eexists. split; [reflexivity |]. split; [reflexivity |].
    split; reflexivity.
Qed.

Lemma reversed_year_range_not_validated_witness :
  (2020 > 2013)%Z
  /\ exists conds,
       where_list "CAPACITY" "California (CISO)" "All BAs in California (CISO)"
                  "All" "All" "All" (2020, 2013)%Z = Ok conds
       /\ nth_error conds 4
          = Some "CAST(substr(year_quarter, 1, 4) AS INTEGER) BETWEEN 2020 AND 2013".
Proof.
  split; [lia |].
  destruct (reversed_year_range_not_validated
              "CAPACITY" "California (CISO)" "All BAs in California (CISO)"
              "All" "All" "All" 2020 2013 ltac:(lia)) as [_ [_ H]].
  destruct (H _ eq_refl) as [conds [H1 [H2 _]]].
  exists conds. split; [exact H1 | exact H2].
Defined.

(** ** C3: the flattening of the catalog *)

Lemma In_sorted xs c : In c (sorted xs) <-> In c xs.
Proof.
  unfold sorted. split; intros H.
  - eapply Permutation_in; [| exact H].
    apply Permutation_sym, StringSort.Permuted_sort.
  - eapply Permutation_in; [| exact H]. apply StringSort.Permuted_sort.
Qed.

Lemma NoDup_sorted xs : NoDup xs -> NoDup (sorted xs).
Proof.
  intros H. eapply Permutation_NoDup; [| exact H].
  apply StringSort.Permuted_sort.
Qed.

Lemma In_all_bas_flat d c :
  In c (all_bas_flat d) <->
  exists bas, In bas (dict_values d) /\ In c bas /\ c <> "All Regions".
Proof.
  unfold all_bas_flat, set_of, flat_bas.
  rewrite In_sorted, nodup_In, in_flat_map.
  split; intros [bas [Hbas H]]; exists bas; split; try assumption.
  - apply filter_In in H. destruct H as [Hin Hne].
    split; [assumption | now apply neqb_true].
  - apply filter_In. destruct H as [Hin Hne].
    split; [assumption | now apply neqb_true].
Qed.

Lemma NoDup_all_bas_flat d : NoDup (all_bas_flat d).
Proof. apply NoDup_sorted, NoDup_nodup. Qed.

(** In the catalog, the code "All Regions" occurs under the label
    "All Regions" and nowhere else, and that entry holds nothing else. *)
Lemma concrete_regions_hold_no_sentinel label codes c :
  In (label, codes) BA_REGIONS -> label <> "All Regions" -> In c codes ->
  c <> "All Regions".
Proof.
  assert (Hall : forallb (fun kv : string * list string =>
                    (fst kv =? "All Regions")
                    || forallb (fun c => neqb c "All Regions") (snd kv))
                  BA_REGIONS = true) by (vm_compute; reflexivity).
  rewrite forallb_forall in Hall.
  intros Hin Hlabel Hc. specialize (Hall _ Hin). simpl in Hall.
  apply orb_true_iff in Hall. destruct Hall as [Heq | Hcodes].
  - apply String.eqb_eq in Heq. contradiction.
  - rewrite forallb_forall in Hcodes. now apply neqb_true, Hcodes.
Qed.

Lemma sentinel_entry_holds_only_sentinel codes c :
  In ("All Regions", codes) BA_REGIONS -> In c codes -> c = "All Regions".
Proof.
  assert (Hall : forallb (fun kv : string * list string =>
                    neqb (fst kv) "All Regions"
                    || forallb (fun c => c =? "All Regions") (snd kv))
                  BA_REGIONS = true) by (vm_compute; reflexivity).
  rewrite forallb_forall in Hall.
  intros Hin Hc. specialize (Hall _ Hin). simpl in Hall.
  rewrite forallb_forall in Hall. now apply String.eqb_eq, Hall.
Qed.

Lemma In_ALL_BAS_FLAT c :
  In c ALL_BAS_FLAT <->
  exists label codes,
    In (label, codes) BA_REGIONS /\ label <> "All Regions" /\ In c codes.
Proof.
  unfold ALL_BAS_FLAT. rewrite In_all_bas_flat. split.
  - intros [bas [Hbas [Hc Hne]]].
    unfold dict_values in Hbas. apply in_map_iff in Hbas.
    destruct Hbas as [[label codes] [Heq Hentry]]. simpl in Heq. subst codes.
    exists label, bas. split; [exact Hentry |]. split; [| exact Hc].
    intros ->. apply Hne.
    exact (sentinel_entry_holds_only_sentinel bas c Hentry Hc).
  - intros [label [codes [Hentry [Hlabel Hc]]]].
    exists codes. split; [| split].
    + unfold dict_values. apply in_map_iff. exists (label, codes).
      split; [reflexivity | exact Hentry].
    + exact Hc.
    + exact (concrete_regions_hold_no_sentinel label codes c Hentry Hlabel Hc).
Qed.

(** C3: [ALL_BAS_FLAT], the code list used for the "All Regions"
    label, is the deduplicated union of the code lists of every other
    region label: a code is in it exactly when some region other than
    "All Regions" lists it, every code occurs in it once, the
    synthetic "All Regions" entry is not in it, and it is that union
    in ascending order. *)
Theorem all_bas_flat_is_dedup_union :
  NoDup ALL_BAS_FLAT
  /\ (forall c,
        In c ALL_BAS_FLAT <->
        exists label codes,
          In (label, codes) BA_REGIONS /\ label <> "All Regions" /\ In c codes)
  /\ (forall label codes c,
        In (label, codes) BA_REGIONS -> label <> "All Regions" -> In c codes ->
        count_occ string_dec ALL_BAS_FLAT c = 1%nat)
  /\ ~ In "All Regions" ALL_BAS_FLAT
  /\ ALL_BAS_FLAT = sorted (union_of_other_regions BA_REGIONS).
Proof.
  split; [exact (NoDup_all_bas_flat BA_REGIONS) |].
  split; [exact In_ALL_BAS_FLAT |]. split; [| split].
  - intros label codes c Hentry Hlabel Hc.
    refine (proj1 (NoDup_count_occ' string_dec ALL_BAS_FLAT)
              (NoDup_all_bas_flat BA_REGIONS) c _).
    refine (proj2 (In_ALL_BAS_FLAT c) _).
    exists label, codes. exact (conj Hentry (conj Hlabel Hc)).
  - intros H.
    destruct (proj1 (In_ALL_BAS_FLAT "All Regions") H)
      as [label [codes [Hentry [Hlabel Hc]]]].
    exact (concrete_regions_hold_no_sentinel label codes "All Regions"
             Hentry Hlabel Hc eq_refl).
  - vm_compute. reflexivity.
Qed.

Lemma all_bas_flat_is_dedup_union_witness :
  In "WALC" ALL_BAS_FLAT
  /\ count_occ string_dec ALL_BAS_FLAT "WALC" = 1%nat
  /\ count_occ string_dec (flat_bas BA_REGIONS) "WALC" = 2%nat.
Proof.
  destruct all_bas_flat_is_dedup_union as [_ [Hin [Hcount _]]].
  split; [| split].
  - refine (proj2 (Hin "WALC") _).
    exists "Southwest (SW)",
      ["AZPS"; "EPE"; "NEVP"; "PNM"; "SRP"; "TEPC"; "WALC"; "WACM"].
    split; [in_list |]. split; [discriminate | in_list].
  - refine (Hcount "California (CISO)"
              ["CISO"; "BANC"; "IID"; "LDWP"; "TIDC"; "WALC"] "WALC" _ _ _).
    + in_list.
    + discriminate.
    + in_list.
  - vm_compute. reflexivity.
Defined.

(** ** The conditions of a predicate, block by block *)

Lemma where_list_ok product region ba affiliate rate_type service_type y0 y1 reg :
  regional_conds region ba = Ok reg ->
  where_list product region ba affiliate rate_type service_type (y0, y1) =
  Ok (base_conds product y0 y1 ++ reg ++ affiliate_conds affiliate
        ++ rate_conds rate_type ++ service_conds service_type)%list.
Proof. intros H. now rewrite where_list_shape, H. Qed.

Lemma where_list_raise product region ba affiliate rate_type service_type y0 y1 e :
  regional_conds region ba = Raise e ->
  where_list product region ba affiliate rate_type service_type (y0, y1) = Raise e.
Proof. intros H. now rewrite where_list_shape, H. Qed.

Lemma conds_by_column product region ba affiliate rate_type service_type y0 y1 reg :
  regional_conds region ba = Ok reg ->
  let conds :=
    (base_conds product y0 y1 ++ reg ++ affiliate_conds affiliate
       ++ rate_conds rate_type ++ service_conds service_type)%list in
  conds_on BA_COLUMN conds = reg
  /\ conds_on "contract_affiliate" conds = affiliate_conds affiliate
  /\ conds_on "product_type_name" conds = rate_conds rate_type
  /\ conds_on "class_name" conds = service_conds service_type
  /\ conds_off "product_type_name" conds
     = (base_conds product y0 y1 ++ reg ++ affiliate_conds affiliate
          ++ service_conds service_type)%list
  /\ conds_off "class_name" conds
     = (base_conds product y0 y1 ++ reg ++ affiliate_conds affiliate
          ++ rate_conds rate_type)%list.
Proof.
  intros Hreg conds. subst conds.
  destruct (base_conds_columns product y0 y1) as [B1 [B2 [B3 [B4 [B5 B6]]]]].
  destruct (regional_conds_columns region ba reg Hreg)
    as [R1 [R2 [R3 [R4 [R5 R6]]]]].
  destruct (affiliate_conds_columns affiliate) as [A1 [A2 [A3 [A4 [A5 A6]]]]].
  destruct (rate_conds_columns rate_type) as [T1 [T2 [T3 [T4 [T5 T6]]]]].
  destruct (service_conds_columns service_type) as [S1 [S2 [S3 [S4 [S5 S6]]]]].
  rewrite !conds_on_app, !conds_off_app.
  rewrite B1, B2, B3, B4, B5, B6, R1, R2, R3, R4, R5, R6.
  rewrite A1, A2, A3, A4, A5, A6, T1, T2, T3, T4, T5, T6.
  rewrite S1, S2, S3, S4, S5, S6.
  cbn [app]. rewrite !app_nil_r. repeat split; reflexivity.
Qed.

Lemma block_lengths affiliate rate_type service_type :
  (List.length (affiliate_conds affiliate) <= 1
   /\ List.length (rate_conds rate_type) <= 1
   /\ List.length (service_conds service_type) <= 1)%nat.
Proof.
  unfold affiliate_conds, rate_conds, service_conds.
  destruct (neqb affiliate "All");
    destruct (rate_type =? "Market-Based");
    destruct (rate_type =? "Cost-Based");
    destruct (service_type =? "Firm");
    destruct (service_type =? "Non-Firm"); simpl; lia.
Qed.

(** ** C4: one predicate, two query shapes *)

(** C4: for every selection, the trend query and the leaderboard
    query carry the same predicate: the text between [WHERE ] and the
    tail of each template is, in both, the conditions of
    [build_where_clause] joined by [" AND "], condition for condition
    and in the same order; when predicate construction fails, both
    fetches fail with the same error. *)
Theorem trend_and_leaderboard_share_predicate
    (entity_type product region ba affiliate rate_type service_type : string)
    (year_range : Z * Z) :
  match where_list product region ba affiliate rate_type service_type
                   year_range with
  | Ok conds =>
      exists q_trend q_leader,
        (forall (frame : Type) (execute : string -> frame),
            fetch_market_trends frame execute product region ba affiliate
                                rate_type service_type year_range
            = Ok (execute q_trend, q_trend)
            /\ fetch_leaderboard frame execute entity_type product region ba
                                 affiliate rate_type service_type year_range
               = Ok (execute q_leader))
        /\ where_portion trends_query_tail q_trend
           = Some (join " AND " conds)
        /\ where_portion leaderboard_query_tail q_leader
           = Some (join " AND " conds)
  | Raise e =>
      forall (frame : Type) (execute : string -> frame),
        fetch_market_trends frame execute product region ba affiliate
                            rate_type service_type year_range = Raise e
        /\ fetch_leaderboard frame execute entity_type product region ba
                             affiliate rate_type service_type year_range
           = Raise e
  end.
Proof.
  unfold fetch_market_trends, fetch_leaderboard.
  rewrite build_where_clause_join.
  destruct (where_list product region ba affiliate rate_type service_type
                       year_range) as [conds | e]; cbn [bind].
  - exists (trends_query (join " AND " conds)),
      (leaderboard_query (group_col_of entity_type) (join " AND " conds)).
    split; [intros frame execute; split; reflexivity |].
    split; [apply where_portion_trends | apply where_portion_leaderboard].
  - intros frame execute. split; reflexivity.
Qed.

(** ** C8: the two leaderboard roles *)

(** C8: for every selection, the leaderboard queries for
    role = seller and role = buyer are the same template around the
    same predicate and differ only in the grouping column
    ([seller_company_name] against [customer_company_name]): the text
    before the column, and the text after it (the sum of quantity and
    the row count, the predicate, [ORDER BY 2 DESC] and [LIMIT 10])
    coincide; when predicate construction fails, both
    fail with the same error. *)
Theorem leaderboard_roles_differ_only_in_group_column
    (product region ba affiliate rate_type service_type : string)
    (year_range : Z * Z) :
  leaderboard_query_mid
  = " as entity_name, " ++ LF
    ++ "        sum(quantity) as total_volume," ++ LF
    ++ "        count(*) as contracts_count" ++ LF
    ++ "    FROM read_parquet('" ++ s3_path ++ "')" ++ LF
    ++ "    WHERE "
  /\ leaderboard_query_tail
     = LF ++ "    GROUP BY 1" ++ LF
       ++ "    ORDER BY 2 DESC" ++ LF
       ++ "    LIMIT 10" ++ LF
       ++ "    "
  /\ match build_where_clause product region ba affiliate rate_type
                              service_type year_range with
     | Ok where_stmt =>
         let rest :=
           leaderboard_query_mid ++ where_stmt ++ leaderboard_query_tail in
         forall (frame : Type) (execute : string -> frame),
           fetch_leaderboard frame execute "seller" product region ba
                             affiliate rate_type service_type year_range
           = Ok (execute (leaderboard_query_head
                            ++ "seller_company_name" ++ rest))
           /\ fetch_leaderboard frame execute "buyer" product region ba
                                affiliate rate_type service_type year_range
              = Ok (execute (leaderboard_query_head
                               ++ "customer_company_name" ++ rest))
           /\ where_portion leaderboard_query_tail
                (leaderboard_query_head ++ "seller_company_name" ++ rest)
              = Some where_stmt
           /\ where_portion leaderboard_query_tail
                (leaderboard_query_head ++ "customer_company_name" ++ rest)
              = Some where_stmt
     | Raise e =>
         forall (frame : Type) (execute : string -> frame),
           fetch_leaderboard frame execute "seller" product region ba
                             affiliate rate_type service_type year_range
           = Raise e
           /\ fetch_leaderboard frame execute "buyer" product region ba
                                affiliate rate_type service_type year_range
              = Raise e
     end.
Proof.
  split; [reflexivity |]. split; [reflexivity |].
  unfold fetch_leaderboard.
  destruct (build_where_clause product region ba affiliate rate_type
                               service_type year_range) as [w | e];
    cbn [bind].
  - intros frame execute.
    split; [reflexivity |]. split; [reflexivity |].
    split.
    + exact (where_portion_leaderboard "seller" w).
    + exact (where_portion_leaderboard "buyer" w).
  - intros frame execute. split; reflexivity.
Qed.

(** ** C5: the regional scope filter *)

Lemma catalog_in_cond_lists_codes region codes :
  In (region, codes) BA_REGIONS -> quoted_items (ba_in_cond codes) = codes.
Proof.
  assert (Hall : forallb (fun kv : string * list string =>
                    if list_eq_dec string_dec
                         (quoted_items (ba_in_cond (snd kv))) (snd kv)
                    then true else false)
                  BA_REGIONS = true) by (vm_compute; reflexivity).
  rewrite forallb_forall in Hall.
  intros Hin. specialize (Hall (region, codes) Hin). cbn [snd] in Hall.
  destruct (list_eq_dec string_dec (quoted_items (ba_in_cond codes)) codes)
    as [Heq | _]; [exact Heq | discriminate Hall].
Qed.

(** C5: the regional scope filter is a three-way tie-break. A scope
    choice that is neither the wildcard of the region nor
    "All Regions" gives one regional condition, the equality on that
    code, and no set condition. Otherwise a region label other than
    "All Regions" gives one regional condition, the membership in the
    quoted list of exactly the codes the catalog holds for that
    region, in catalog order. Otherwise there is no regional
    condition. *)
Theorem regional_scope_tie_break
    (product region ba affiliate rate_type service_type : string)
    (year_range : Z * Z) :
  (ba <> "All BAs in " ++ region -> ba <> "All Regions" ->
   exists conds,
     where_list product region ba affiliate rate_type service_type year_range
     = Ok conds
     /\ conds_on BA_COLUMN conds
        = [ "point_of_delivery_balancing_authority = '" ++ ba ++ "'" ])
  /\ (ba = "All BAs in " ++ region \/ ba = "All Regions" ->
      region <> "All Regions" ->
      forall codes, dict_get BA_REGIONS region = Ok codes ->
      exists conds,
        where_list product region ba affiliate rate_type service_type
                   year_range = Ok conds
        /\ conds_on BA_COLUMN conds
           = [ "point_of_delivery_balancing_authority IN ('"
                 ++ join "', '" codes ++ "')" ]
        /\ quoted_items ("point_of_delivery_balancing_authority IN ('"
                           ++ join "', '" codes ++ "')") = codes)
  /\ (ba = "All BAs in " ++ region \/ ba = "All Regions" ->
      region = "All Regions" ->
      exists conds,
        where_list product region ba affiliate rate_type service_type
                   year_range = Ok conds
        /\ conds_on BA_COLUMN conds = []).
Proof.
  destruct year_range as [y0 y1]. split; [| split].
  - intros H1 H2.
    pose proof (regional_conds_single region ba H1 H2) as Hreg.
    eexists. split; [exact (where_list_ok _ _ _ _ _ _ _ _ _ Hreg) |].
    exact (proj1 (conds_by_column product region ba affiliate rate_type
                    service_type y0 y1 _ Hreg)).
  - intros H1 H2 codes Hget.
    pose proof (regional_conds_region region ba H1 H2) as Hreg.
    rewrite Hget in Hreg. cbn [bind] in Hreg.
    eexists. split; [exact (where_list_ok _ _ _ _ _ _ _ _ _ Hreg) |].
    split.
    + exact (proj1 (conds_by_column product region ba affiliate rate_type
                      service_type y0 y1 _ Hreg)).
    + exact (catalog_in_cond_lists_codes region codes
               (dict_get_In _ _ _ Hget)).
  - intros H1 ->.
    pose proof (regional_conds_none ba H1) as Hreg.
    eexists. split; [exact (where_list_ok _ _ _ _ _ _ _ _ _ Hreg) |].
    exact (proj1 (conds_by_column product "All Regions" ba affiliate
                    rate_type service_type y0 y1 _ Hreg)).
Qed.

Lemma regional_scope_tie_break_witness :
  (exists conds,
      where_list "ENERGY" "California (CISO)" "CISO" "All" "All" "All"
                 (2013, 2025)%Z = Ok conds
      /\ conds_on BA_COLUMN conds
         = [ "point_of_delivery_balancing_authority = 'CISO'" ])
  /\ (exists conds,
        where_list "ENERGY" "California (CISO)" "All BAs in California (CISO)"
                   "All" "All" "All" (2013, 2025)%Z = Ok conds
        /\ conds_on BA_COLUMN conds
           = [ "point_of_delivery_balancing_authority IN "
                 ++ "('CISO', 'BANC', 'IID', 'LDWP', 'TIDC', 'WALC')" ])
  /\ (exists conds,
        where_list "ENERGY" "All Regions" "All Regions" "All" "All" "All"
                   (2013, 2025)%Z = Ok conds
        /\ conds_on BA_COLUMN conds = []).
Proof.
  split; [| split].
  - refine (proj1 (regional_scope_tie_break "ENERGY" "California (CISO)"
                     "CISO" "All" "All" "All" (2013, 2025)%Z) _ _);
      discriminate.
  - destruct (proj1 (proj2 (regional_scope_tie_break "ENERGY"
                     "California (CISO)" "All BAs in California (CISO)"
                     "All" "All" "All" (2013, 2025)%Z))
                (or_introl eq_refl) ltac:(discriminate)
                ["CISO"; "BANC"; "IID"; "LDWP"; "TIDC"; "WALC"] eq_refl)
      as [conds [H1 [H2 _]]].
    exists conds. split; [exact H1 | exact H2].
  - refine (proj2 (proj2 (regional_scope_tie_break "ENERGY" "All Regions"
                     "All Regions" "All" "All" "All" (2013, 2025)%Z))
              (or_intror eq_refl) eq_refl).
Defined.

(** ** C6: the rate-basis filter *)

(** C6: with rate-basis "All" the predicate has no condition on the
    rate-basis column; with "Market-Based" it has exactly one, the
    equality on 'MB', and the cost-based equality is not among its
    conditions; the conditions on every other column are the same
    whatever the rate-basis choice, and so is the error when predicate
    construction fails. *)
Theorem rate_basis_filter
    (product region ba affiliate rate_type service_type : string)
    (year_range : Z * Z) :
  match
    where_list product region ba affiliate "All" service_type year_range,
    where_list product region ba affiliate "Market-Based" service_type
               year_range,
    where_list product region ba affiliate rate_type service_type year_range
  with
  | Ok c_all, Ok c_mb, Ok c_any =>
      conds_on "product_type_name" c_all = []
      /\ conds_on "product_type_name" c_mb = [ "product_type_name = 'MB'" ]
      /\ ~ In "product_type_name = 'CB'" c_mb
      /\ conds_off "product_type_name" c_mb = c_all
      /\ conds_off "product_type_name" c_any = c_all
  | Raise e_all, Raise e_mb, Raise e_any => e_all = e_mb /\ e_mb = e_any
  | _, _, _ => False
  end.
Proof.
  destruct year_range as [y0 y1]. rewrite !where_list_shape.
  destruct (regional_conds region ba) as [reg | e] eqn:Hreg; cbn [bind].
  - destruct (conds_by_column product region ba affiliate "All"
                service_type y0 y1 reg Hreg) as [_ [_ [Hall [_ [Hall' _]]]]].
    destruct (conds_by_column product region ba affiliate "Market-Based"
                service_type y0 y1 reg Hreg) as [_ [_ [Hmb [_ [Hmb' _]]]]].
    destruct (conds_by_column product region ba affiliate rate_type
                service_type y0 y1 reg Hreg) as [_ [_ [_ [_ [Hany' _]]]]].
    cbn zeta in Hall, Hall', Hmb, Hmb', Hany'.
    change (rate_conds "All") with (@nil string) in *.
    change (rate_conds "Market-Based") with [ "product_type_name = 'MB'" ] in *.
    cbn [app] in Hall'.
    split; [exact Hall |]. split; [exact Hmb |]. split; [| split].
    + intros Hin.
      assert (Hin' : In "product_type_name = 'CB'"
                       [ "product_type_name = 'MB'" ]).
      { rewrite <- Hmb. apply filter_In. split; [exact Hin | reflexivity]. }
      destruct Hin' as [Heq | []]. discriminate Heq.
    + rewrite Hmb'. reflexivity.
    + rewrite Hany'. reflexivity.
  - split; reflexivity.
Qed.

(** ** C7: the service-class filter *)

(** C7: with service-class "All" the predicate has no condition on
    the service-class column, so no list restricting rows to the
    firm and non-firm codes: its conditions are exactly the
    conditions, other than the service-class one, of the predicate
    built for any service-class choice. Hence, under any reading
    [sat] of single conditions, a row that satisfies those other
    conditions satisfies the whole predicate, whatever its
    service-class code. *)
Theorem service_class_all_unrestricted
    (product region ba affiliate rate_type service_type : string)
    (year_range : Z * Z) :
  match
    where_list product region ba affiliate rate_type "All" year_range,
    where_list product region ba affiliate rate_type service_type year_range
  with
  | Ok c_all, Ok c_any =>
      conds_on "class_name" c_all = []
      /\ conds_off "class_name" c_any = c_all
      /\ (forall (row : Type) (sat : row -> string -> Prop) (x : row),
             Forall (sat x) (conds_off "class_name" c_any) ->
             Forall (sat x) c_all)
  | Raise e_all, Raise e_any => e_all = e_any
  | _, _ => False
  end.
Proof.
  destruct year_range as [y0 y1]. rewrite !where_list_shape.
  destruct (regional_conds region ba) as [reg | e] eqn:Hreg; cbn [bind].
  - destruct (conds_by_column product region ba affiliate rate_type "All"
                y0 y1 reg Hreg) as [_ [_ [_ [Hall _]]]].
    destruct (conds_by_column product region ba affiliate rate_type
                service_type y0 y1 reg Hreg) as [_ [_ [_ [_ [_ Hany]]]]].
    cbn zeta in Hall, Hany.
    change (service_conds "All") with (@nil string) in *.
    rewrite !app_nil_r.
    split; [rewrite !app_nil_r in Hall; exact Hall |].
    split; [exact Hany |].
    intros row sat x Hsat. rewrite Hany in Hsat. exact Hsat.
  - reflexivity.
Qed.

Lemma service_class_all_unrestricted_witness :
  exists c_all,
    where_list "ENERGY" "All Regions" "All Regions" "All" "All" "All"
               (2013, 2025)%Z = Ok c_all
    /\ conds_on "class_name" c_all = []
    /\ Forall (fun cond => cond <> "class_name = 'F'"
                           /\ cond <> "class_name = 'NF'") c_all.
Proof.
  pose proof (service_class_all_unrestricted
                "ENERGY" "All Regions" "All Regions" "All" "All" "Firm"
                (2013, 2025)%Z) as H.
  cbv beta iota delta
    [where_list bind append_item unit_of neqb negb andb String.eqb Ascii.eqb
     Bool.eqb app] in H.
  destruct H as [H1 [_ H3]].
  eexists. split; [reflexivity |]. split; [exact H1 |].
  apply (H3 unit (fun _ cond => cond <> "class_name = 'F'"
                                /\ cond <> "class_name = 'NF'") tt).
  repeat constructor; discriminate.
Defined.

(** ** C9: a region label missing from the catalog *)

Lemma not_a_key {V : Type} (d : list (string * V)) (k : string) :
  forallb (fun k' => neqb k' k) (dict_keys d) = true -> ~ In k (dict_keys d).
Proof.
  intros Hall Hin. rewrite forallb_forall in Hall.
  specialize (Hall k Hin). apply neqb_true in Hall. now apply Hall.
Qed.

(** C9, as stated, fails: with a region label that is not in the
    catalog and a single entity code as scope choice, a predicate is
    returned and no error is raised. *)
Lemma unknown_region_single_code_accepted :
  ~ In "Texas (ERCOT)" (dict_keys BA_REGIONS)
  /\ build_where_clause "ENERGY" "Texas (ERCOT)" "ERCO" "All" "All" "All"
                        (2013, 2025)%Z
     = Ok ("product_name = 'ENERGY' AND term_name = 'LT' AND "
           ++ "rate_units = '$/MWH' AND rate > 0 AND "
           ++ "CAST(substr(year_quarter, 1, 4) AS INTEGER) "
           ++ "BETWEEN 2013 AND 2025 AND "
           ++ "point_of_delivery_balancing_authority = 'ERCO'").
Proof.
  split.
  - apply not_a_key. vm_compute. reflexivity.
  - vm_compute. reflexivity.
Qed.

(** C9 (amended): for a region label that is not in the catalog,
    predicate construction fails, with the [KeyError] of the catalog
    lookup, when the scope choice is the wildcard of that region or
    "All Regions"; when the scope choice is a single entity code the
    catalog is not consulted, and the predicate is returned with the
    equality on that code as its only regional condition. *)
Theorem unknown_region_fails_on_lookup_only
    (product region ba affiliate rate_type service_type : string)
    (year_range : Z * Z) :
  ~ In region (dict_keys BA_REGIONS) ->
  (ba = "All BAs in " ++ region \/ ba = "All Regions" ->
   where_list product region ba affiliate rate_type service_type year_range
   = Raise (KeyError region)
   /\ build_where_clause product region ba affiliate rate_type service_type
                         year_range = Raise (KeyError region)
   /\ forall (frame : Type) (execute : string -> frame),
        fetch_market_trends frame execute product region ba affiliate
                            rate_type service_type year_range
        = Raise (KeyError region))
  /\ (ba <> "All BAs in " ++ region -> ba <> "All Regions" ->
      exists conds,
        where_list product region ba affiliate rate_type service_type
                   year_range = Ok conds
        /\ conds_on BA_COLUMN conds
           = [ "point_of_delivery_balancing_authority = '" ++ ba ++ "'" ]
        /\ build_where_clause product region ba affiliate rate_type
                              service_type year_range
           = Ok (join " AND " conds)).
Proof.
  intros Hmissing. destruct year_range as [y0 y1]. split.
  - intros Hscope.
    assert (Hne : region <> "All Regions").
    { intros ->. apply Hmissing. exact all_regions_is_key. }
    pose proof (regional_conds_region region ba Hscope Hne) as Hreg.
    rewrite (dict_get_missing BA_REGIONS region Hmissing) in Hreg.
    cbn [bind] in Hreg.
    pose proof (where_list_raise product region ba affiliate rate_type
                  service_type y0 y1 _ Hreg) as Hlist.
    split; [exact Hlist |].
    unfold fetch_market_trends. rewrite build_where_clause_join, Hlist.
    split; [reflexivity | intros frame execute; reflexivity].
  - intros H1 H2.
    pose proof (regional_conds_single region ba H1 H2) as Hreg.
    pose proof (where_list_ok product region ba affiliate rate_type
                  service_type y0 y1 _ Hreg) as Hlist.
    eexists. split; [exact Hlist |]. split.
    + exact (proj1 (conds_by_column product region ba affiliate rate_type
                      service_type y0 y1 _ Hreg)).
    + rewrite build_where_clause_join, Hlist. reflexivity.
Qed.

Lemma unknown_region_fails_on_lookup_only_witness :
  ~ In "Texas (ERCOT)" (dict_keys BA_REGIONS)
  /\ where_list "ENERGY" "Texas (ERCOT)" "All BAs in Texas (ERCOT)"
                "All" "All" "All" (2013, 2025)%Z
     = Raise (KeyError "Texas (ERCOT)")
  /\ exists conds,
       where_list "ENERGY" "Texas (ERCOT)" "ERCO" "All" "All" "All"
                  (2013, 2025)%Z = Ok conds
       /\ conds_on BA_COLUMN conds
          = [ "point_of_delivery_balancing_authority = 'ERCO'" ].
Proof.
  assert (Hmissing : ~ In "Texas (ERCOT)" (dict_keys BA_REGIONS))
    by (apply not_a_key; vm_compute; reflexivity).
  split; [exact Hmissing |]. split.
  - exact (proj1 (proj1 (unknown_region_fails_on_lookup_only
                    "ENERGY" "Texas (ERCOT)" "All BAs in Texas (ERCOT)"
                    "All" "All" "All" (2013, 2025)%Z Hmissing)
                  (or_introl eq_refl))).
  - destruct (proj2 (unknown_region_fails_on_lookup_only
                    "ENERGY" "Texas (ERCOT)" "ERCO"
                    "All" "All" "All" (2013, 2025)%Z Hmissing)
                ltac:(discriminate) ltac:(discriminate))
      as [conds [H1 [H2 _]]].
    exists conds. split; [exact H1 | exact H2].
Defined.

(** ** C10: the shape of every predicate *)

Lemma regional_conds_on_column region ba reg :
  regional_conds region ba = Ok reg ->
  (List.length reg <= 1)%nat
  /\ Forall (fun cond => on_column BA_COLUMN cond = true) reg.
Proof.
  unfold regional_conds.
  destruct (neqb ba ("All BAs in " ++ region) && neqb ba "All Regions").
  - intros [= <-]. split; [simpl; lia | repeat constructor].
  - destruct (neqb region "All Regions").
    + destruct (dict_get BA_REGIONS region); [| discriminate].
      intros [= <-]. split; [simpl; lia | repeat constructor].
    + intros [= <-]. split; [simpl; lia | constructor].
Qed.

Lemma blocks_on_column affiliate rate_type service_type :
  Forall (fun cond => on_column "contract_affiliate" cond = true)
         (affiliate_conds affiliate)
  /\ Forall (fun cond => on_column "product_type_name" cond = true)
            (rate_conds rate_type)
  /\ Forall (fun cond => on_column "class_name" cond = true)
            (service_conds service_type).
Proof.
  unfold affiliate_conds, rate_conds, service_conds.
  destruct (neqb affiliate "All"); destruct (affiliate =? "Affiliate");
    destruct (rate_type =? "Market-Based");
    destruct (rate_type =? "Cost-Based");
    destruct (service_type =? "Firm");
    destruct (service_type =? "Non-Firm");
    repeat split; repeat constructor.
Qed.

(** C10: for any region label in the catalog and any other inputs,
    [build_where_clause] returns a conjunction of 5 to 9 conditions:
    first the product equality, the term condition
    [term_name = 'LT'], the unit equality, [rate > 0] and the
    year-range bound, in this order; then at most one regional
    condition, at most one affiliate condition, at most one
    rate-basis condition and at most one service-class condition, in
    this order. *)
Theorem predicate_shape
    (product region ba affiliate rate_type service_type : string)
    (start_year end_year : Z) (codes : list string) :
  dict_get BA_REGIONS region = Ok codes ->
  exists reg aff rate svc : list string,
    let first_five :=
      [ "product_name = '" ++ product ++ "'";
        "term_name = 'LT'";
        "rate_units = '"
          ++ (if product =? "ENERGY" then "$/MWH" else "$/KW-MO") ++ "'";
        "rate > 0";
        "CAST(substr(year_quarter, 1, 4) AS INTEGER) BETWEEN "
          ++ str_of_int start_year ++ " AND " ++ str_of_int end_year ] in
    let conds := (first_five ++ reg ++ aff ++ rate ++ svc)%list in
    where_list product region ba affiliate rate_type service_type
               (start_year, end_year) = Ok conds
    /\ build_where_clause product region ba affiliate rate_type service_type
                          (start_year, end_year) = Ok (join " AND " conds)
    /\ (5 <= List.length conds <= 9)%nat
    /\ (List.length reg <= 1 /\ List.length aff <= 1
        /\ List.length rate <= 1 /\ List.length svc <= 1)%nat
    /\ Forall (fun cond => on_column BA_COLUMN cond = true) reg
    /\ Forall (fun cond => on_column "contract_affiliate" cond = true) aff
    /\ Forall (fun cond => on_column "product_type_name" cond = true) rate
    /\ Forall (fun cond => on_column "class_name" cond = true) svc.
Proof.
  intros Hget.
  destruct (regional_conds_known region ba codes Hget) as [reg [Hreg _]].
  destruct (regional_conds_on_column region ba reg Hreg) as [Lreg Creg].
  destruct (block_lengths affiliate rate_type service_type)
    as [Laff [Lrate Lsvc]].
  destruct (blocks_on_column affiliate rate_type service_type)
    as [Caff [Crate Csvc]].
  pose proof (where_list_ok product region ba affiliate rate_type
                service_type start_year end_year reg Hreg) as Hlist.
  exists reg, (affiliate_conds affiliate), (rate_conds rate_type),
    (service_conds service_type).
  cbn zeta. split; [exact Hlist |]. split.
  - rewrite build_where_clause_join.
    change (bind (where_list product region ba affiliate rate_type
                    service_type (start_year, end_year))
              (fun conds => Ok (join " AND " conds))
            = Ok (join " AND "
                    (base_conds product start_year end_year ++ reg
                       ++ affiliate_conds affiliate ++ rate_conds rate_type
                       ++ service_conds service_type)%list)).
    rewrite Hlist. reflexivity.
  - split.
    + cbn [List.length app]. rewrite !List.length_app. lia.
    + repeat split; assumption.
Qed.

Lemma predicate_shape_witness :
  exists conds,
    build_where_clause "CAPACITY" "California (CISO)"
                       "All BAs in California (CISO)" "Affiliate"
                       "Cost-Based" "Firm" (2020, 2022)%Z
    = Ok (join " AND " conds)
    /\ (5 <= List.length conds <= 9)%nat.
Proof.
  destruct (predicate_shape "CAPACITY" "California (CISO)"
              "All BAs in California (CISO)" "Affiliate" "Cost-Based" "Firm"
              2020 2022 ["CISO"; "BANC"; "IID"; "LDWP"; "TIDC"; "WALC"]
              eq_refl)
    as [reg [aff [rate [svc [_ [H2 [H3 _]]]]]]].
  eexists. split; [exact H2 | exact H3].
Defined.

(** * Further properties of the query logic *)

(** ** The categorical filters on values outside their three names *)

Lemma affiliate_conds_cases affiliate :
  affiliate_conds "All" = []
  /\ affiliate_conds "Affiliate" = [ "contract_affiliate = TRUE" ]
  /\ affiliate_conds "Non-Affiliate" = [ "contract_affiliate = FALSE" ]
  /\ (affiliate <> "All" -> affiliate <> "Affiliate" ->
      affiliate_conds affiliate = [ "contract_affiliate = FALSE" ]).
Proof.
  repeat split; try reflexivity.
  intros H1 H2. unfold affiliate_conds.
  apply neqb_true in H1. rewrite H1.
  apply String.eqb_neq in H2. rewrite H2. reflexivity.
Qed.

Lemma rate_conds_other rate_type :
  rate_type <> "Market-Based" -> rate_type <> "Cost-Based" ->
  rate_conds rate_type = [].
Proof.
  intros H1 H2. unfold rate_conds.
  apply String.eqb_neq in H1. apply String.eqb_neq in H2.
  now rewrite H1, H2.
Qed.

Lemma service_conds_other service_type :
  service_type <> "Firm" -> service_type <> "Non-Firm" ->
  service_conds service_type = [].
Proof.
  intros H1 H2. unfold service_conds.
  apply String.eqb_neq in H1. apply String.eqb_neq in H2.
  now rewrite H1, H2.
Qed.

(** The affiliate block: "All" adds no condition on the affiliate
    flag, "Affiliate" adds [contract_affiliate = TRUE], and every
    other value, "Non-Affiliate" or not, adds
    [contract_affiliate = FALSE]: a value outside the three names is
    not rejected and gives the predicate of "Non-Affiliate". *)
Theorem affiliate_filter
    (product region ba affiliate rate_type service_type : string)
    (year_range : Z * Z) :
  (affiliate <> "All" -> affiliate <> "Affiliate" ->
   where_list product region ba affiliate rate_type service_type year_range
   = where_list product region ba "Non-Affiliate" rate_type service_type
                year_range)
  /\ match
       where_list product region ba "All" rate_type service_type year_range,
       where_list product region ba "Affiliate" rate_type service_type
                  year_range,
       where_list product region ba "Non-Affiliate" rate_type service_type
                  year_range
     with
     | Ok c_all, Ok c_aff, Ok c_non =>
         conds_on "contract_affiliate" c_all = []
         /\ conds_on "contract_affiliate" c_aff
            = [ "contract_affiliate = TRUE" ]
         /\ conds_on "contract_affiliate" c_non
            = [ "contract_affiliate = FALSE" ]
     | Raise e_all, Raise e_aff, Raise e_non => e_all = e_aff /\ e_aff = e_non
     | _, _, _ => False
     end.
Proof.
  destruct year_range as [y0 y1]. rewrite !where_list_shape.
  destruct (affiliate_conds_cases affiliate) as [_ [_ [Hnon Hother]]].
  split.
  - intros H1 H2. rewrite (Hother H1 H2), Hnon. reflexivity.
  - destruct (regional_conds region ba) as [reg | e] eqn:Hreg; cbn [bind].
    + split; [| split].
      * exact (proj1 (proj2 (conds_by_column product region ba "All"
                               rate_type service_type y0 y1 reg Hreg))).
      * exact (proj1 (proj2 (conds_by_column product region ba "Affiliate"
                               rate_type service_type y0 y1 reg Hreg))).
      * exact (proj1 (proj2 (conds_by_column product region ba
                               "Non-Affiliate" rate_type service_type
                               y0 y1 reg Hreg))).
    + split; reflexivity.
Qed.

Lemma affiliate_filter_witness :
  where_list "ENERGY" "All Regions" "All Regions" "affiliate" "All" "All"
             (2013, 2025)%Z
  = Ok [ "product_name = 'ENERGY'";
         "term_name = 'LT'";
         "rate_units = '$/MWH'";
         "rate > 0";
         "CAST(substr(year_quarter, 1, 4) AS INTEGER) BETWEEN 2013 AND 2025";
         "contract_affiliate = FALSE" ].
Proof.
  rewrite (proj1 (affiliate_filter "ENERGY" "All Regions" "All Regions"
                    "affiliate" "All" "All" (2013, 2025)%Z)
             ltac:(discriminate) ltac:(discriminate)).
  reflexivity.
Defined.

(** The rate-basis block beyond C6: "Cost-Based" adds exactly the
    equality on 'CB'; a value that is neither "Market-Based" nor
    "Cost-Based" is not rejected and gives the predicate of "All". *)
Theorem rate_basis_other_values
    (product region ba affiliate rate_type service_type : string)
    (year_range : Z * Z) :
  (rate_type <> "Market-Based" -> rate_type <> "Cost-Based" ->
   where_list product region ba affiliate rate_type service_type year_range
   = where_list product region ba affiliate "All" service_type year_range)
  /\ match
       where_list product region ba affiliate "Cost-Based" service_type
                  year_range
     with
     | Ok c_cb =>
         conds_on "product_type_name" c_cb = [ "product_type_name = 'CB'" ]
     | Raise e =>
         where_list product region ba affiliate "All" service_type year_range
         = Raise e
     end.
Proof.
  destruct year_range as [y0 y1]. rewrite !where_list_shape. split.
  - intros H1 H2. rewrite (rate_conds_other rate_type H1 H2). reflexivity.
  - destruct (regional_conds region ba) as [reg | e] eqn:Hreg; cbn [bind].
    + exact (proj1 (proj2 (proj2 (conds_by_column product region ba
                affiliate "Cost-Based" service_type y0 y1 reg Hreg)))).
    + reflexivity.
Qed.

Lemma rate_basis_other_values_witness :
  where_list "ENERGY" "All Regions" "All Regions" "All" "market-based" "All"
             (2013, 2025)%Z
  = where_list "ENERGY" "All Regions" "All Regions" "All" "All" "All"
               (2013, 2025)%Z.
Proof.
  exact (proj1 (rate_basis_other_values "ENERGY" "All Regions" "All Regions"
                  "All" "market-based" "All" (2013, 2025)%Z)
           ltac:(discriminate) ltac:(discriminate)).
Defined.

(** The service-class block beyond C7: "Firm" adds exactly the
    equality on 'F', "Non-Firm" exactly the equality on 'NF'; a value
    that is neither is not rejected and gives the predicate of
    "All". *)
Theorem service_class_other_values
    (product region ba affiliate rate_type service_type : string)
    (year_range : Z * Z) :
  (service_type <> "Firm" -> service_type <> "Non-Firm" ->
   where_list product region ba affiliate rate_type service_type year_range
   = where_list product region ba affiliate rate_type "All" year_range)
  /\ match
       where_list product region ba affiliate rate_type "Firm" year_range,
       where_list product region ba affiliate rate_type "Non-Firm" year_range
     with
     | Ok c_firm, Ok c_nonfirm =>
         conds_on "class_name" c_firm = [ "class_name = 'F'" ]
         /\ conds_on "class_name" c_nonfirm = [ "class_name = 'NF'" ]
         /\ conds_off "class_name" c_firm = conds_off "class_name" c_nonfirm
     | Raise e_firm, Raise e_nonfirm => e_firm = e_nonfirm
     | _, _ => False
     end.
Proof.
  destruct year_range as [y0 y1]. rewrite !where_list_shape. split.
  - intros H1 H2. rewrite (service_conds_other service_type H1 H2).
    reflexivity.
  - destruct (regional_conds region ba) as [reg | e] eqn:Hreg; cbn [bind].
    + destruct (conds_by_column product region ba affiliate rate_type
                  "Firm" y0 y1 reg Hreg) as [_ [_ [_ [F1 [_ F2]]]]].
      destruct (conds_by_column product region ba affiliate rate_type
                  "Non-Firm" y0 y1 reg Hreg) as [_ [_ [_ [N1 [_ N2]]]]].
      cbn zeta in F1, F2, N1, N2.
      split; [exact F1 |]. split; [exact N1 |].
      rewrite F2, N2. reflexivity.
    + reflexivity.
Qed.

Lemma service_class_other_values_witness :
  where_list "ENERGY" "All Regions" "All Regions" "All" "All" "Unit Power"
             (2013, 2025)%Z
  = where_list "ENERGY" "All Regions" "All Regions" "All" "All" "All"
               (2013, 2025)%Z.
Proof.
  exact (proj1 (service_class_other_values "ENERGY" "All Regions"
                  "All Regions" "All" "All" "Unit Power" (2013, 2025)%Z)
           ltac:(discriminate) ltac:(discriminate)).
Defined.

(** ** The unit that goes with the product *)

(** The unit condition, third in every predicate, asks for '$/MWH'
    exactly when the product is "ENERGY"; for every other product,
    "CAPACITY" or not, it asks for '$/KW-MO'. *)
Theorem unit_condition_follows_product
    (product region ba affiliate rate_type service_type : string)
    (year_range : Z * Z) (conds : list string) :
  where_list product region ba affiliate rate_type service_type year_range
  = Ok conds ->
  (product = "ENERGY" -> nth_error conds 2 = Some "rate_units = '$/MWH'")
  /\ (product <> "ENERGY" ->
      nth_error conds 2 = Some "rate_units = '$/KW-MO'")
  /\ nth_error conds 0 = Some ("product_name = '" ++ product ++ "'").
Proof.
  destruct year_range as [y0 y1]. rewrite where_list_shape.
  destruct (regional_conds region ba) as [reg | e]; cbn [bind];
    [| discriminate].
  intros [= <-]. unfold base_conds, unit_of. cbn [app nth_error].
  split; [| split].
  - intros ->. reflexivity.
  - intros Hne. apply String.eqb_neq in Hne. rewrite Hne. reflexivity.
  - reflexivity.
Qed.

Lemma unit_condition_follows_product_witness :
  exists conds,
    where_list "CAPACITY" "All Regions" "All Regions" "All" "All" "All"
               (2013, 2025)%Z = Ok conds
    /\ nth_error conds 2 = Some "rate_units = '$/KW-MO'".
Proof.
  eexists. split; [reflexivity |].
  refine (proj1 (proj2 (unit_condition_follows_product
            "CAPACITY" "All Regions" "All Regions" "All" "All" "All"
            (2013, 2025)%Z _ eq_refl)) _).
  discriminate.
Defined.

(** ** When predicate construction fails *)

Lemma scope_is_wildcard_iff region ba :
  neqb ba ("All BAs in " ++ region) && neqb ba "All Regions" = false
  <-> (ba = "All BAs in " ++ region \/ ba = "All Regions").
Proof.
  rewrite andb_false_iff, !neqb_false. reflexivity.
Qed.

Lemma regional_conds_raises_iff region ba e :
  regional_conds region ba = Raise e <->
  (e = KeyError region /\ ~ In region (dict_keys BA_REGIONS)
   /\ (ba = "All BAs in " ++ region \/ ba = "All Regions")).
Proof.
  split.
  - intros H. destruct (regional_conds_raises region ba e H) as [He Hkey].
    split; [exact He |]. split; [exact Hkey |].
    apply scope_is_wildcard_iff. unfold regional_conds in H.
    destruct (neqb ba ("All BAs in " ++ region) && neqb ba "All Regions");
      [discriminate H | reflexivity].
  - intros [-> [Hkey Hscope]].
    assert (Hne : region <> "All Regions").
    { intros ->. apply Hkey. exact all_regions_is_key. }
    rewrite (regional_conds_region region ba Hscope Hne).
    rewrite (dict_get_missing BA_REGIONS region Hkey). reflexivity.
Qed.

(** [build_where_clause] raises in one situation only: the region
    label is not a key of [BA_REGIONS] and the scope choice is the
    wildcard of that region or "All Regions"; the exception is then
    the [KeyError] on that label. For every other input, whatever
    the product, the filters and the years, it returns a predicate. *)
Theorem build_where_clause_raises_iff
    (product region ba affiliate rate_type service_type : string)
    (year_range : Z * Z) (e : exn) :
  build_where_clause product region ba affiliate rate_type service_type
                     year_range = Raise e
  <-> (e = KeyError region /\ ~ In region (dict_keys BA_REGIONS)
       /\ (ba = "All BAs in " ++ region \/ ba = "All Regions")).
Proof.
  destruct year_range as [y0 y1].
  rewrite <- regional_conds_raises_iff.
  rewrite build_where_clause_join, where_list_shape.
  destruct (regional_conds region ba) as [reg | e']; cbn [bind].
  - split; discriminate.
  - split; intros [= ->]; reflexivity.
Qed.

(** ** The role of a leaderboard *)

(** Every role other than "seller" is read as the buyer: the
    leaderboard fetched for it is the one fetched for "buyer",
    grouped by [customer_company_name]; no role is rejected. *)
Theorem leaderboard_role_defaults_to_buyer
    (frame : Type) (execute : string -> frame)
    (entity_type product region ba affiliate rate_type service_type : string)
    (year_range : Z * Z) :
  entity_type <> "seller" ->
  group_col_of entity_type = "customer_company_name"
  /\ fetch_leaderboard frame execute entity_type product region ba affiliate
                       rate_type service_type year_range
     = fetch_leaderboard frame execute "buyer" product region ba affiliate
                         rate_type service_type year_range.
Proof.
  intros Hne. unfold fetch_leaderboard, group_col_of.
  apply String.eqb_neq in Hne. rewrite Hne. split; reflexivity.
Qed.

Lemma leaderboard_role_defaults_to_buyer_witness :
  fetch_leaderboard string (fun query => query) "Seller" "ENERGY"
                    "All Regions" "All Regions" "All" "All" "All"
                    (2013, 2025)%Z
  = fetch_leaderboard string (fun query => query) "buyer" "ENERGY"
                      "All Regions" "All Regions" "All" "All" "All"
                      (2013, 2025)%Z.
Proof.
  exact (proj2 (leaderboard_role_defaults_to_buyer string (fun query => query)
                  "Seller" "ENERGY" "All Regions" "All Regions" "All" "All"
                  "All" (2013, 2025)%Z ltac:(discriminate))).
Defined.

(** ** The options of the balancing-authority select box *)

Lemma prefix_append (p r : string) : String.prefix p (p ++ r) = true.
Proof.
  induction p as [| a p IH]; simpl.
  - destruct r; reflexivity.
  - destruct (ascii_dec a a) as [_ | Hne]; [exact IH | now elim Hne].
Qed.

Lemma contains_unfold (sub s : string) :
  contains sub s
  = if String.prefix sub s then true
    else match s with
         | EmptyString => false
         | String _ s' => contains sub s'
         end.
Proof. destruct s; reflexivity. Qed.

Lemma contains_prefixed (p r : string) : contains p (p ++ r) = true.
Proof. rewrite contains_unfold, prefix_append. reflexivity. Qed.

(** No code of the catalog looks like a wildcard. *)
Lemma catalog_codes_are_plain label codes c :
  In (label, codes) BA_REGIONS -> In c codes ->
  contains "All BAs" c = false
  /\ forall region, c <> "All BAs in " ++ region.
Proof.
  assert (Hall : forallb (fun kv : string * list string =>
                    forallb (fun c => negb (contains "All BAs" c)) (snd kv))
                  BA_REGIONS = true) by (vm_compute; reflexivity).
  rewrite forallb_forall in Hall.
  intros Hentry Hc. specialize (Hall (label, codes) Hentry).
  cbn [snd] in Hall. rewrite forallb_forall in Hall.
  specialize (Hall c Hc). apply negb_true_iff in Hall.
  split; [exact Hall |].
  intros region ->.
  change ("All BAs in " ++ region) with ("All BAs" ++ (" in " ++ region))
    in Hall.
  rewrite contains_prefixed in Hall. discriminate Hall.
Qed.

(** The select box fails exactly on a region label that is not a key
    of [BA_REGIONS], with the [KeyError] on that label. *)
Theorem ba_options_raises_iff (region_choice : string) (e : exn) :
  ba_options region_choice = Raise e
  <-> (e = KeyError region_choice
       /\ ~ In region_choice (dict_keys BA_REGIONS)).
Proof.
  unfold ba_options.
  destruct (String.eqb_spec region_choice "All Regions") as [-> | Hne].
  - split; [discriminate |].
    intros [_ Hkey]. elim Hkey. exact all_regions_is_key.
  - destruct (dict_get BA_REGIONS region_choice) as [codes | e'] eqn:Hget;
      cbn [bind].
    + split; [discriminate |].
      intros [_ Hkey].
      rewrite (dict_get_missing BA_REGIONS region_choice Hkey) in Hget.
      discriminate Hget.
    + destruct (dict_get_raises BA_REGIONS region_choice e' Hget)
        as [-> Hkey].
      split.
      * intros [= <-]. split; [reflexivity | exact Hkey].
      * intros [-> _]. reflexivity.
Qed.

(** Every option the select box offers for a region is honoured by
    [build_where_clause] on that region: the predicate is returned,
    and its regional part is nothing for the option "All Regions" of
    the region "All Regions", the membership in the codes of the
    region for the wildcard of a named region, and otherwise the
    equality on the option, which is then a code the catalog lists
    for that region (for some named region, under "All Regions"). *)
Theorem offered_options_are_honoured
    (product region ba affiliate rate_type service_type : string)
    (year_range : Z * Z) (options : list string) :
  ba_options region = Ok options -> In ba options ->
  exists conds,
    where_list product region ba affiliate rate_type service_type year_range
    = Ok conds
    /\ ((region = "All Regions" /\ ba = "All Regions"
         /\ conds_on BA_COLUMN conds = [])
        \/ (region <> "All Regions" /\ ba = "All BAs in " ++ region
            /\ exists codes,
                 dict_get BA_REGIONS region = Ok codes
                 /\ conds_on BA_COLUMN conds = [ba_in_cond codes])
        \/ (conds_on BA_COLUMN conds = [ba_eq_cond ba]
            /\ exists label codes,
                 In (label, codes) BA_REGIONS /\ label <> "All Regions"
                 /\ In ba codes
                 /\ (region = "All Regions" \/ label = region))).
Proof.
  destruct year_range as [y0 y1]. unfold ba_options.
  assert (Hsingle : forall label codes,
             In (label, codes) BA_REGIONS -> label <> "All Regions" ->
             In ba codes -> (region = "All Regions" \/ label = region) ->
             exists conds,
               where_list product region ba affiliate rate_type service_type
                          (y0, y1) = Ok conds
               /\ conds_on BA_COLUMN conds = [ba_eq_cond ba]).
  { intros label codes Hentry Hlabel Hc _.
    pose proof (regional_conds_single region ba
                  (proj2 (catalog_codes_are_plain label codes ba Hentry Hc)
                     region)
                  (concrete_regions_hold_no_sentinel label codes ba
                     Hentry Hlabel Hc)) as Hreg.
    eexists. split; [exact (where_list_ok _ _ _ _ _ _ _ _ _ Hreg) |].
    exact (proj1 (conds_by_column product region ba affiliate rate_type
                    service_type y0 y1 _ Hreg)). }
  destruct (String.eqb_spec region "All Regions") as [-> | Hne].
  - intros [= <-] [<- | Hin].
    + pose proof (regional_conds_none "All Regions" (or_intror eq_refl))
        as Hreg.
      eexists. split; [exact (where_list_ok _ _ _ _ _ _ _ _ _ Hreg) |].
      left. split; [reflexivity |]. split; [reflexivity |].
      exact (proj1 (conds_by_column product "All Regions" "All Regions"
                      affiliate rate_type service_type y0 y1 _ Hreg)).
    + destruct (proj1 (In_ALL_BAS_FLAT ba) Hin)
        as [label [codes [Hentry [Hlabel Hc]]]].
      destruct (Hsingle label codes Hentry Hlabel Hc (or_introl eq_refl))
        as [conds [H1 H2]].
      exists conds. split; [exact H1 |]. right. right.
      split; [exact H2 |]. exists label, codes.
      repeat split; try assumption. left. reflexivity.
  - destruct (dict_get BA_REGIONS region) as [codes | e] eqn:Hget;
      cbn [bind]; [| discriminate].
    intros [= <-] [<- | Hin].
    + pose proof (regional_conds_region region ("All BAs in " ++ region)
                    (or_introl eq_refl) Hne) as Hreg.
      rewrite Hget in Hreg. cbn [bind] in Hreg.
      eexists. split; [exact (where_list_ok _ _ _ _ _ _ _ _ _ Hreg) |].
      right. left. split; [exact Hne |]. split; [reflexivity |].
      exists codes. split; [reflexivity |].
      exact (proj1 (conds_by_column product region _ affiliate rate_type
                      service_type y0 y1 _ Hreg)).
    + apply (proj1 (In_sorted codes ba)) in Hin.
      pose proof (dict_get_In BA_REGIONS region codes Hget) as Hentry.
      destruct (Hsingle region codes Hentry Hne Hin (or_intror eq_refl))
        as [conds [H1 H2]].
      exists conds. split; [exact H1 |]. right. right.
      split; [exact H2 |]. exists region, codes.
      repeat split; try assumption. right. reflexivity.
Qed.

Lemma offered_options_are_honoured_witness :
  exists conds,
    where_list "ENERGY" "Southwest (SW)" "WALC" "All" "All" "All"
               (2013, 2025)%Z = Ok conds
    /\ conds_on BA_COLUMN conds
       = [ "point_of_delivery_balancing_authority = 'WALC'" ].
Proof.
  destruct (offered_options_are_honoured "ENERGY" "Southwest (SW)" "WALC"
              "All" "All" "All" (2013, 2025)%Z
              ("All BAs in Southwest (SW)"
               :: sorted ["AZPS"; "EPE"; "NEVP"; "PNM"; "SRP"; "TEPC";
                          "WALC"; "WACM"])
              eq_refl)
    as [conds [H1 H2]].
  - right. apply (proj2 (In_sorted _ _)). in_list.
  - exists conds. split; [exact H1 |]. vm_compute in H1.
    injection H1 as <-. reflexivity.
Defined.

(** ** The title of the trend chart *)

(** For every option of the select box, the chart is titled after
    the region, as its regional price index, exactly when the option
    is the wildcard of a named region; for a single code, and for the
    option "All Regions" of the region "All Regions", it is titled
    after the option, as its price trends. *)
Theorem chart_title_of_offered_option
    (region ba : string) (options : list string) :
  ba_options region = Ok options -> In ba options ->
  chart_title ba region
  = if ba =? "All BAs in " ++ region
    then region ++ " Regional Price Index"
    else ba ++ " Price Trends".
Proof.
  unfold ba_options, chart_title.
  assert (Hcode : forall label codes,
             In (label, codes) BA_REGIONS -> In ba codes ->
             (if negb (contains "All BAs" ba)
              then ba ++ " Price Trends"
              else region ++ " Regional Price Index")
             = (if ba =? "All BAs in " ++ region
                then region ++ " Regional Price Index"
                else ba ++ " Price Trends")).
  { intros label codes Hentry Hc.
    destruct (catalog_codes_are_plain label codes ba Hentry Hc)
      as [Hplain Hnw].
    rewrite Hplain. specialize (Hnw region).
    apply String.eqb_neq in Hnw. rewrite Hnw. reflexivity. }
  destruct (String.eqb_spec region "All Regions") as [-> | Hne].
  - intros [= <-] [<- | Hin].
    + reflexivity.
    + destruct (proj1 (In_ALL_BAS_FLAT ba) Hin)
        as [label [codes [Hentry [_ Hc]]]].
      exact (Hcode label codes Hentry Hc).
  - destruct (dict_get BA_REGIONS region) as [codes | e] eqn:Hget;
      cbn [bind]; [| discriminate].
    intros [= <-] [<- | Hin].
    + replace (contains "All BAs" ("All BAs in " ++ region)) with true
        by (symmetry; exact (contains_prefixed "All BAs" (" in " ++ region))).
      rewrite String.eqb_refl. reflexivity.
    + apply (proj1 (In_sorted codes ba)) in Hin.
      exact (Hcode region codes (dict_get_In _ _ _ Hget) Hin).
Qed.

Lemma chart_title_of_offered_option_witness :
  chart_title "All Regions" "All Regions" = "All Regions Price Trends"
  /\ chart_title "All BAs in New York (NYISO)" "New York (NYISO)"
     = "New York (NYISO) Regional Price Index".
Proof.
  split.
  - rewrite (chart_title_of_offered_option "All Regions" "All Regions"
               ("All Regions" :: ALL_BAS_FLAT) eq_refl (or_introl eq_refl)).
    reflexivity.
  - rewrite (chart_title_of_offered_option "New York (NYISO)"
               "All BAs in New York (NYISO)"
               ("All BAs in New York (NYISO)" :: sorted ["NYIS"])
               eq_refl (or_introl eq_refl)).
    reflexivity.
Defined.

(** ** The flattening, for any dict of regions *)

Lemma leb_cases (a b : string) :
  String.leb a b = true <-> (a = b \/ OrderedTypeEx.String_as_OT.lt a b).
Proof.
  unfold String.leb.
  pose proof (OrderedTypeEx.String_as_OT.cmp_eq a b) as Heq.
  pose proof (OrderedTypeEx.String_as_OT.cmp_lt a b) as Hlt.
  unfold OrderedTypeEx.String_as_OT.cmp in Heq, Hlt.
  destruct (String.compare a b); split; intros H.
  - left. now apply Heq.
  - reflexivity.
  - right. now apply Hlt.
  - reflexivity.
  - discriminate H.
  - destruct H as [H | H]; [apply Heq in H | apply Hlt in H];
      discriminate H.
Qed.

Lemma leb_trans (a b c : string) :
  String.leb a b = true -> String.leb b c = true -> String.leb a c = true.
Proof.
  rewrite !leb_cases. intros [-> | Hab] [-> | Hbc]; auto.
  right. exact (OrderedTypeEx.String_as_OT.lt_trans a b c Hab Hbc).
Qed.

Lemma sorted_ascending xs :
  StronglySorted (fun a b => String.leb a b = true) (sorted xs).
Proof.
  apply Sorted_StronglySorted.
  - intros a b c. apply leb_trans.
  - exact (StringSort.Sorted_sort xs).
Qed.

(** Two ascending lists without repetition that hold the same strings
    are the same list. *)
Lemma ascending_lists_equal (l1 l2 : list string) :
  StronglySorted (fun a b => String.leb a b = true) l1 ->
  StronglySorted (fun a b => String.leb a b = true) l2 ->
  NoDup l1 -> NoDup l2 ->
  (forall x, In x l1 <-> In x l2) ->
  l1 = l2.
Proof.
  revert l2. induction l1 as [| a l1 IH]; intros l2 S1 S2 N1 N2 Hsame.
  - destruct l2 as [| b l2]; [reflexivity |].
    exfalso. apply (proj2 (Hsame b)). now left.
  - destruct l2 as [| b l2].
    + exfalso. apply (proj1 (Hsame a)). now left.
    + inversion S1 as [| ? ? S1' A1]; subst.
      inversion S2 as [| ? ? S2' A2]; subst.
      inversion N1 as [| ? ? Na N1']; subst.
      inversion N2 as [| ? ? Nb N2']; subst.
      rewrite Forall_forall in A1, A2.
      assert (Hab : a = b).
      { destruct (proj1 (Hsame a) (or_introl eq_refl)) as [Hba | Hin2];
          [now symmetry |].
        destruct (proj2 (Hsame b) (or_introl eq_refl)) as [Hab | Hin1];
          [exact Hab |].
        apply String.leb_antisym; [exact (A1 b Hin1) | exact (A2 a Hin2)]. }
      subst b. f_equal. apply IH; try assumption.
      intros x. split; intros Hx.
      * destruct (proj1 (Hsame x) (or_intror Hx)) as [Hax | Hx2];
          [subst x; contradiction | exact Hx2].
      * destruct (proj2 (Hsame x) (or_intror Hx)) as [Hax | Hx1];
          [subst x; contradiction | exact Hx1].
Qed.

Lemma In_all_bas_flat_entries (d : list (string * list string)) (c : string) :
  In c (all_bas_flat d) <->
  (c <> "All Regions"
   /\ exists label codes, In (label, codes) d /\ In c codes).
Proof.
  rewrite In_all_bas_flat. split.
  - intros [bas [Hbas [Hc Hne]]]. split; [exact Hne |].
    unfold dict_values in Hbas. apply in_map_iff in Hbas.
    destruct Hbas as [[label codes] [Heq Hentry]]. simpl in Heq. subst codes.
    exists label, bas. split; assumption.
  - intros [Hne [label [codes [Hentry Hc]]]].
    exists codes. split; [| split; assumption].
    unfold dict_values. apply in_map_iff. exists (label, codes).
    split; [reflexivity | exact Hentry].
Qed.

(** For any dict of regions, the flattening is in ascending order,
    has no repeated code, and holds exactly the strings other than
    "All Regions" that some entry lists, whatever the label of that
    entry: the test is on the code, not on the label. *)
Theorem all_bas_flat_any_dict (d : list (string * list string)) :
  StronglySorted (fun a b => String.leb a b = true) (all_bas_flat d)
  /\ NoDup (all_bas_flat d)
  /\ forall c,
       In c (all_bas_flat d) <->
       (c <> "All Regions"
        /\ exists label codes, In (label, codes) d /\ In c codes).
Proof.
  split; [apply sorted_ascending |]. split; [apply NoDup_all_bas_flat |].
  exact (In_all_bas_flat_entries d).
Qed.

(** The flattening depends only on which codes the dict lists: two
    dicts that list the same codes other than "All Regions", under
    any labels, in any order and with any repetition, flatten to the
    same list. *)
Theorem all_bas_flat_order_independent (d d' : list (string * list string)) :
  (forall c, c <> "All Regions" ->
      ((exists label codes, In (label, codes) d /\ In c codes)
       <-> (exists label codes, In (label, codes) d' /\ In c codes))) ->
  all_bas_flat d = all_bas_flat d'.
Proof.
  intros Hsame.
  apply ascending_lists_equal;
    try apply sorted_ascending; try apply NoDup_all_bas_flat.
  intros x. rewrite !In_all_bas_flat_entries.
  split; intros [Hne H]; (split; [exact Hne |]); now apply (Hsame x Hne).
Qed.

Lemma all_bas_flat_order_independent_witness :
  all_bas_flat [ ("West", ["B"; "A"]); ("East", ["C"; "A"]) ]
  = all_bas_flat [ ("All Regions", ["All Regions"]);
                   ("Any", ["C"; "B"; "A"]) ].
Proof.
  apply all_bas_flat_order_independent.
  intros c Hne. split; intros [label [codes [Hentry Hc]]].
  - exists "Any", ["C"; "B"; "A"]. split; [in_list |].
    destruct Hentry as [[= <- <-] | [[= <- <-] | []]].
    + destruct Hc as [<- | [<- | []]]; in_list.
    + destruct Hc as [<- | [<- | []]]; in_list.
  - destruct Hentry as [[= <- <-] | [[= <- <-] | []]].
    + destruct Hc as [<- | []]. now elim Hne.
    + destruct Hc as [<- | [<- | [<- | []]]].
      * exists "East", ["C"; "A"]. split; in_list.
      * exists "West", ["B"; "A"]. split; in_list.
      * exists "West", ["B"; "A"]. split; in_list.
Defined.

(** ** The quoted list of the membership condition *)

Lemma append_assoc (a b c : string) : (a ++ b) ++ c = a ++ (b ++ c).
Proof. induction a as [| x a IH]; simpl; [reflexivity | now rewrite IH]. Qed.

Lemma append_empty_r (a : string) : a ++ "" = a.
Proof. induction a as [| x a IH]; simpl; [reflexivity | now rewrite IH]. Qed.

Lemma quoted_items_inside (c rest cur : string) :
  free_of "'"%char c = true ->
  quoted_items_from (c ++ rest) true cur
  = quoted_items_from rest true (cur ++ c).
Proof.
  revert cur. induction c as [| x c IH]; intros cur Hfree.
  - simpl. now rewrite append_empty_r.
  - simpl in Hfree. apply andb_true_iff in Hfree. destruct Hfree as [Hx Hc].
    apply negb_true_iff in Hx.
    change (String x c ++ rest) with (String x (c ++ rest)).
    cbn [quoted_items_from]. rewrite Hx, (IH _ Hc), append_assoc.
    reflexivity.
Qed.

Lemma quoted_items_of_join (codes : list string) :
  codes <> [] ->
  Forall (fun c => free_of "'"%char c = true) codes ->
  quoted_items_from (join "', '" codes ++ "')") true "" = codes.
Proof.
  induction codes as [| c codes IH]; intros Hne Hfree; [now elim Hne |].
  inversion Hfree as [| ? ? Hc Hrest]; subst.
  destruct codes as [| c' codes'].
  - unfold join. cbn [String.concat].
    rewrite (quoted_items_inside c "')" "" Hc). reflexivity.
  - unfold join in *. cbn [String.concat].
    rewrite !append_assoc.
    rewrite (quoted_items_inside c _ "" Hc).
    cbn [append quoted_items_from Ascii.eqb Bool.eqb].
    cbn. f_equal. apply IH; [discriminate | exact Hrest].
Qed.

(** The membership condition lists exactly the codes it is built
    from, in their order, as long as there is at least one code and
    no code holds a quote character; built from no code at all, it
    lists one code, the empty string. *)
Theorem in_condition_lists_its_codes (codes : list string) :
  (codes <> [] ->
   Forall (fun c => free_of "'"%char c = true) codes ->
   quoted_items ("point_of_delivery_balancing_authority IN ('"
                   ++ join "', '" codes ++ "')") = codes)
  /\ quoted_items ("point_of_delivery_balancing_authority IN ('"
                     ++ join "', '" [] ++ "')") = [ "" ].
Proof.
  split; [| reflexivity].
  intros Hne Hfree.
  rewrite <- (quoted_items_of_join codes Hne Hfree) at 2.
  reflexivity.
Qed.

Lemma in_condition_lists_its_codes_witness :
  quoted_items ("point_of_delivery_balancing_authority IN ('"
                  ++ join "', '" ["NYIS"; "ISNE"] ++ "')")
  = ["NYIS"; "ISNE"].
Proof.
  apply (proj1 (in_condition_lists_its_codes ["NYIS"; "ISNE"])).
  - discriminate.
  - repeat constructor.
Defined.

(** ** The years in the predicate *)








